(** * db_util: the CRUD layer over sqlite3 and the date-filtered pull

    A shallow embedding of [src/database/db_util.py].  Python values are
    modelled by Rocq data, exceptions by an error type, and the effects of
    the module (printing, logging, the sqlite3 connection table) by a state
    and error monad over an explicit [world].  The sqlite3 engine and
    pandas' SQL entry points are not part of the repository: what they
    answer is given by an [Engine] of outcome oracles, so that every
    theorem holds for every behaviour of the engine.  The configuration
    (the query templates, the label column and its sentinel) is a
    parameter as well. *)

From Stdlib Require Import ZArith Ascii String List Lia.
From stdpp Require Import base option list strings gmap.


(** ** Python exceptions and results *)

(** The exception classes the module can meet.  [SqliteError] stands for
    [sqlite3.Error] and all of its subclasses, [OtherError] for any
    exception class not listed. *)
Inductive exn : Type :=
| AttributeError (msg : string)
| IndexError (msg : string)
| KeyError (key : string)
| TypeError (msg : string)
| UnboundLocalError (var : string)
| ValueError (msg : string)
| SqliteError (msg : string)
| OtherError (msg : string).

(** [str(e)] *)
Definition exn_str (e : exn) : string :=
  match e with
  | AttributeError m | IndexError m | TypeError m | ValueError m
  | SqliteError m | OtherError m => m
  | KeyError k => "'" +:+ k +:+ "'"
  | UnboundLocalError v =>
      "cannot access local variable '" +:+ v
        +:+ "' where it is not associated with a value"
  end.

(** [isinstance(e, sqlite3.Error)], the filter of [except sqlite3.Error]. *)
Definition is_sqlite_error (e : exn) : bool :=
  match e with SqliteError _ => true | _ => false end.

Inductive result (A : Type) : Type :=
| Ok (a : A)
| Raise (e : exn).
Arguments Ok {A} a.
Arguments Raise {A} e.

Definition result_bind {A B} (r : result A) (k : A → result B) : result B :=
  match r with Ok a => k a | Raise e => Raise e end.

(** ** Strings *)

Definition TAB : string := String "009"%char "".

Fixpoint str_take (n : nat) (s : string) : string :=
  match n, s with
  | S n', String c s' => String c (str_take n' s')
  | _, _ => ""
  end.

(** [s[:stop]] with Python's treatment of a negative [stop]. *)
Definition str_slice_to (s : string) (stop : Z) : string :=
  if (stop <? 0)%Z
  then str_take (Z.to_nat (Z.of_nat (String.length s) + stop)) s
  else str_take (Z.to_nat stop) s.

(** ** Tables and rows *)

(** A cell of a result table; [NA] is pandas' missing marker (None/NaN). *)
Inductive cell : Type :=
| NA
| Str (s : string)
| Num (z : Z).

Global Instance cell_eq_dec : EqDecision cell.
Proof. solve_decision. Defined.

Definition row : Type := list cell.

(** A [pd.DataFrame]: the number of rows and the columns in order, each
    with its name.  Column names are taken to be distinct. *)
Record DataFrame : Type := mkDataFrame {
  df_nrows : nat;
  df_cols : list (string * list cell)
}.

Fixpoint cols_lookup (name : string) (cols : list (string * list cell))
  : option (list cell) :=
  match cols with
  | [] => None
  | (n, c) :: rest => if decide (n = name) then Some c else cols_lookup name rest
  end.

Fixpoint cols_assign (name : string) (col : list cell)
    (cols : list (string * list cell)) : list (string * list cell) :=
  match cols with
  | [] => [(name, col)]
  | (n, c) :: rest =>
      if decide (n = name) then (n, col) :: rest
      else (n, c) :: cols_assign name col rest
  end.

(** [df[name]] *)
Definition df_getitem (df : DataFrame) (name : string) : result (list cell) :=
  match cols_lookup name (df_cols df) with
  | Some c => Ok c
  | None => Raise (KeyError name)
  end.

(** [df.name] *)
Definition df_getattr (df : DataFrame) (name : string) : result (list cell) :=
  match cols_lookup name (df_cols df) with
  | Some c => Ok c
  | None =>
      Raise (AttributeError
               ("'DataFrame' object has no attribute '" +:+ name +:+ "'"))
  end.

(** [df[name] = col] *)
Definition df_setitem (df : DataFrame) (name : string) (col : list cell)
  : DataFrame :=
  {| df_nrows := df_nrows df; df_cols := cols_assign name col (df_cols df) |}.

(** [series.fillna(value)] *)
Definition fillna (col : list cell) (value : string) : list cell :=
  map (λ c, match c with NA => Str value | _ => c end) col.

(** [series.unique()]: the distinct values in order of first appearance. *)
Fixpoint unique (col : list cell) : list cell :=
  match col with
  | [] => []
  | c :: rest => c :: filter (λ c', c' ≠ c) (unique rest)
  end.

(** ** The world: connections and the trace of effects *)

Definition handle : Type := nat.

Inductive conn_state : Type := Open | Closed.

Global Instance conn_state_eq_dec : EqDecision conn_state.
Proof. solve_decision. Defined.

Inductive log_entry : Type :=
| LogSection (title : string)
| LogSuccess
| LogDates (dates : list cell)
| LogSize (n : nat)
| LogLabelDistribution (labels : list cell).

Inductive event : Type :=
| Print (line : string)
| Log (entry : log_entry)
| SqlConnect (path : string)
| SqlExecute (h : handle) (query : string)
| SqlExecuteMany (h : handle) (query : string) (data : list row)
| SqlRollback (h : handle)
| SqlCommit (h : handle)
| SqlClose (h : handle)
| PdToSql (h : handle) (table : string) (df : DataFrame)
| PdReadSql (c : option handle) (query : string).

(** [conns] holds the state of every connection ever opened, indexed by
    its handle; [trace] is the sequence of effects so far. *)
Record world : Type := mkWorld {
  conns : list conn_state;
  trace : list event
}.

Definition world0 : world := {| conns := []; trace := [] |}.

Definition live (h : handle) (w : world) : bool :=
  match conns w !! h with Some Open => true | _ => false end.

(** ** The state and error monad *)

Definition M (A : Type) : Type := world → result A * world.

Definition ret {A} (a : A) : M A := λ w, (Ok a, w).

Definition raise {A} (e : exn) : M A := λ w, (Raise e, w).

Definition bind {A B} (m : M A) (k : A → M B) : M B :=
  λ w, match m w with
       | (Ok a, w') => k a w'
       | (Raise e, w') => (Raise e, w')
       end.

Declare Scope py_scope.
Delimit Scope py_scope with py.
Notation "x <- m ;; k" := (bind m (λ x, k))
  (at level 100, m at next level, k at level 200, right associativity)
  : py_scope.
Notation "'run' m ;; k" := (bind m (λ _, k))
  (at level 100, m at next level, k at level 200, right associativity)
  : py_scope.
Local Open Scope py_scope.

Definition lift {A} (r : result A) : M A := λ w, (r, w).

(** [try: body  except <filter>: handler].  A handler that raises lets
    its own exception escape. *)
Definition try_except {A} (catches : exn → bool) (body : M A)
    (handler : exn → M A) : M A :=
  λ w, match body w with
       | (Ok a, w') => (Ok a, w')
       | (Raise e, w') => if catches e then handler e w' else (Raise e, w')
       end.

(** The bare [except:] clause. *)
Definition anything (e : exn) : bool := true.

(** [try: body  finally: fin].  [fin] always runs; if it raises, its
    exception replaces the outcome of [body]. *)
Definition try_finally {A} (body : M A) (fin : M unit) : M A :=
  λ w, match body w with
       | (r, w1) =>
           match fin w1 with
           | (Ok _, w2) => (r, w2)
           | (Raise e, w2) => (Raise e, w2)
           end
       end.

Definition emit (ev : event) : M unit :=
  λ w, (Ok tt, {| conns := conns w; trace := trace w ++ [ev] |}).

Definition print (line : string) : M unit := emit (Print line).

Definition log_info (entry : log_entry) : M unit := emit (Log entry).

(** Reading a local variable that may not have been assigned. *)
Definition local_var {A} (name : string) (v : option A) : result A :=
  match v with
  | Some a => Ok a
  | None => Raise (UnboundLocalError name)
  end.

Definition outcome (o : option exn) : M unit :=
  match o with
  | None => ret tt
  | Some e => raise e
  end.

(** [l[i]] on a Python list *)
Definition list_getitem {A} (l : list A) (i : nat) : result A :=
  match l !! i with
  | Some a => Ok a
  | None => Raise (IndexError "list index out of range")
  end.

(** A Python dict in insertion order; the keys are strings (column
    names) and, as in any dict, distinct. *)
Definition dict (V : Type) : Type := list (string * V).

Definition dict_keys {V} (d : dict V) : list string := map fst d.

(** [d[key]] *)
Fixpoint dict_getitem {V} (d : dict V) (key : string) : result V :=
  match d with
  | [] => Raise (KeyError key)
  | (k, v) :: rest => if decide (k = key) then Ok v else dict_getitem rest key
  end.

(** [m[key]] on a dict held as a finite map (no order needed). *)
Definition map_getitem {V} (m : gmap string V) (key : string) : result V :=
  match m !! key with
  | Some v => Ok v
  | None => Raise (KeyError key)
  end.

(** ** [template.format(arg)]

    The part of [str.format] that is decided here: literal text, the
    escapes [{{] and [}}], and empty replacement fields [{}], which are
    numbered automatically and of which only the first has an argument.
    A replacement field that is not empty (a name, an index, a
    conversion, a format specification) is left undecided: [None]. *)

Definition push (c : ascii) (r : option (result string))
  : option (result string) :=
  match r with
  | Some (Ok s) => Some (Ok (String c s))
  | other => other
  end.

Definition push_str (a : string) (r : option (result string))
  : option (result string) :=
  match r with
  | Some (Ok s) => Some (Ok (a +:+ s))
  | other => other
  end.

Definition single_brace (c : string) : exn :=
  ValueError ("Single '" +:+ c +:+ "' encountered in format string").

Fixpoint format_fields (template arg : string) (used : bool)
  : option (result string) :=
  match template with
  | EmptyString => Some (Ok "")
  | String c t =>
      if bool_decide (c = "{"%char) then
        match t with
        | EmptyString => Some (Raise (single_brace "{"))
        | String c' t' =>
            if bool_decide (c' = "{"%char) then
              push "{" (format_fields t' arg used)
            else if bool_decide (c' = "}"%char) then
              if used
              then Some (Raise (IndexError
                     "Replacement index 1 out of range for positional args tuple"))
              else push_str arg (format_fields t' arg true)
            else None
        end
      else if bool_decide (c = "}"%char) then
        match t with
        | EmptyString => Some (Raise (single_brace "}"))
        | String c' t' =>
            if bool_decide (c' = "}"%char) then
              push "}" (format_fields t' arg used)
            else Some (Raise (single_brace "}"))
        end
      else push c (format_fields t arg used)
  end.

(** ** The engine: sqlite3 and pandas

    What the third-party code answers is not decided by this module.
    Every call that can fail asks the engine for its outcome; the engine
    may look at the whole world so far.  [rollback] and [close] on an
    open connection, [print] and the logger are taken not to fail. *)
Record Engine : Type := mkEngine {
  (** [sqlite3.connect(path)]: [None] when the file opens *)
  connect_outcome : string → world → option exn;
  (** [cursor.execute(query)]: the rows of the result set *)
  execute_outcome : world → handle → string → result (list row);
  (** [cursor.executemany(query, data)] *)
  executemany_outcome : world → handle → string → list row → option exn;
  (** [connection.commit()] *)
  commit_outcome : world → handle → option exn;
  (** [df.to_sql(name, con, if_exists='append', index=False)] *)
  to_sql_outcome : world → handle → DataFrame → string → option exn;
  (** [pd.read_sql(query, con)] *)
  read_sql_outcome : world → option handle → string → result DataFrame;
  (** [template.format(arg)] where [format_fields] does not decide *)
  format_outcome : string → string → result string
}.

(** A variable holding a [sqlite3.Connection] or [None]. *)
Definition connection : Type := option handle.

Record cursor : Type := mkCursor {
  cur_conn : handle;
  cur_rows : list row
}.

Record Database : Type := mkDatabase {
  conn : connection
}.

Definition closed_database : exn :=
  SqliteError "Cannot operate on a closed database.".

Definition none_has_no (attr : string) : exn :=
  AttributeError ("'NoneType' object has no attribute '" +:+ attr +:+ "'").

(** A method of [sqlite3.Connection] that needs an open database:
    attribute lookup fails on [None], the call fails on a closed
    connection. *)
Definition on_connection {A} (attr : string) (c : connection)
    (k : handle → M A) : M A :=
  match c with
  | None => raise (none_has_no attr)
  | Some h => λ w, if live h w then k h w else (Raise closed_database, w)
  end.

(** ** [datetime.strptime(s, '%Y%m%d')] and [strftime('%Y-%m-%d')]

    The two library calls of [get_query], for the fixed formats the module
    passes.  [strptime] compiles the format to the regular expression
    [(\d\d\d\d)(1[0-2]|0[1-9]|[1-9])(3[0-1]|[1-2]\d|0[1-9]|[1-9]| [1-9])],
    matches it at the start of the string, refuses unconverted text
    after the match and builds a calendar date from the three groups.
    Strings are sequences of code points below 256, where [\d] is the
    class of ASCII digits.  [strftime] hands the format to the C
    library: [%m] and [%d] are printed with two digits, [%Y] is the year
    in decimal, which CPython on Linux (glibc) does not pad, so that the
    years below 1000 come out with fewer than four digits. *)

Record date : Type := mkDate {
  year : nat;
  month : nat;
  day : nat
}.

Definition char_class : Type := ascii → bool.

Definition in_range (lo hi : ascii) : char_class :=
  λ c, ((nat_of_ascii lo <=? nat_of_ascii c)
        && (nat_of_ascii c <=? nat_of_ascii hi))%nat.

Definition is_char (a : ascii) : char_class := λ c, bool_decide (c = a).

Definition digit : char_class := in_range "0" "9".

(** One alternative of a group: a sequence of character classes.  The
    result is the matched text and the rest of the string. *)
Fixpoint match_seq (classes : list char_class) (s : string)
  : option (string * string) :=
  match classes with
  | [] => Some ("", s)
  | cl :: classes' =>
      match s with
      | String c s' =>
          if cl c then
            match match_seq classes' s' with
            | Some (m, r) => Some (String c m, r)
            | None => None
            end
          else None
      | EmptyString => None
      end
  end.

(** A sequence of groups, each an ordered choice of alternatives, matched
    as [re.match] does: the leftmost alternative that lets the rest of
    the pattern match wins, and the match need not reach the end of the
    string. *)
Fixpoint match_groups (groups : list (list (list char_class))) (s : string)
  : option (list string * string) :=
  match groups with
  | [] => Some ([], s)
  | alts :: groups' =>
      (fix try_alts (alts : list (list char_class)) :=
         match alts with
         | [] => None
         | a :: alts' =>
             match match_seq a s with
             | Some (m, r) =>
                 match match_groups groups' r with
                 | Some (ms, r') => Some (m :: ms, r')
                 | None => try_alts alts'
                 end
             | None => try_alts alts'
             end
         end) alts
  end.

Definition regex_Y : list (list char_class) :=
  [[digit; digit; digit; digit]].

Definition regex_m : list (list char_class) :=
  [[is_char "1"; in_range "0" "2"];
   [is_char "0"; in_range "1" "9"];
   [in_range "1" "9"]].

Definition regex_d : list (list char_class) :=
  [[is_char "3"; in_range "0" "1"];
   [in_range "1" "2"; digit];
   [is_char "0"; in_range "1" "9"];
   [in_range "1" "9"];
   [is_char " "; in_range "1" "9"]].

Fixpoint int_digits (acc : nat) (s : string) : nat :=
  match s with
  | EmptyString => acc
  | String c s' => int_digits (10 * acc + (nat_of_ascii c - 48)) s'
  end.

(** [int(s)] on the text of a group: digits, after one space at most. *)
Definition py_int (s : string) : nat :=
  match s with
  | String " " s' => int_digits 0 s'
  | _ => int_digits 0 s
  end.

Definition is_leap (y : nat) : bool :=
  ((y mod 4 =? 0) && (negb (y mod 100 =? 0) || (y mod 400 =? 0)))%nat.

Definition days_in_month (y m : nat) : nat :=
  match m with
  | 2 => if is_leap y then 29 else 28
  | 4 | 6 | 9 | 11 => 30
  | _ => 31
  end.

(** [datetime_date(year, month, day)] for a month from 1 to 12 and a day
    of at least 1, as the groups of the pattern give them. *)
Definition datetime_date (y mo dd : nat) : result date :=
  if (y =? 0)%nat then Raise (ValueError "year 0 is out of range")
  else if (days_in_month y mo <? dd)%nat
       then Raise (ValueError "day is out of range for month")
       else Ok {| year := y; month := mo; day := dd |}.

Definition strptime_Ymd (data_string : option string) : result date :=
  match data_string with
  | None => Raise (TypeError "strptime() argument 1 must be str, not None")
  | Some s =>
      match match_groups [regex_Y; regex_m; regex_d] s with
      | Some ([Y; m; d], rest) =>
          if bool_decide (rest = "")
          then datetime_date (py_int Y) (py_int m) (py_int d)
          else Raise (ValueError ("unconverted data remains: " +:+ rest))
      | _ =>
          Raise (ValueError ("time data '" +:+ s
                               +:+ "' does not match format '%Y%m%d'"))
      end
  end.

Definition digit_char (n : nat) : ascii := ascii_of_nat (48 + n mod 10).

Definition pad2 (n : nat) : string :=
  String (digit_char (n / 10)) (String (digit_char n) "").

Definition pad4 (n : nat) : string :=
  String (digit_char (n / 1000)) (String (digit_char (n / 100)) (pad2 n)).

(** [%Y]: the year, from 1 to 9999, in decimal without padding. *)
Definition year_text (y : nat) : string :=
  if (y <? 10)%nat then String (digit_char y) ""
  else if (y <? 100)%nat then pad2 y
  else if (y <? 1000)%nat then String (digit_char (y / 100)) (pad2 y)
  else pad4 y.

Definition strftime_Y_m_d (d : date) : string :=
  year_text (year d) +:+ "-" +:+ pad2 (month d) +:+ "-" +:+ pad2 (day d).

Section DbUtil.

(** ** Configuration (config.config, constants.genericconstants) *)

Variable IMG_LBL : string.          (* DBCONST.IMG_LBL *)
Variable IMG_UNLBLED : string.      (* DBCONST.IMG_UNLBLED *)
Variable SELECT_CMD : gmap string string.  (* select_from_table_commands *)

Variable E : Engine.

(** ** sqlite3 and pandas calls *)

(** [template.format(arg)] *)
Definition str_format (template arg : string) : result string :=
  match format_fields template arg false with
  | Some r => r
  | None => format_outcome E template arg
  end.

Definition sqlite3_connect (db_path : string) : M handle :=
  λ w,
    let tr := trace w ++ [SqlConnect db_path] in
    match connect_outcome E db_path w with
    | Some e => (Raise e, {| conns := conns w; trace := tr |})
    | None =>
        (Ok (length (conns w)), {| conns := conns w ++ [Open]; trace := tr |})
    end.

(** [conn.cursor()] *)
Definition conn_cursor (c : connection) : M cursor :=
  on_connection "cursor" c (λ h, ret {| cur_conn := h; cur_rows := [] |}).

(** [cur.execute(query)]; the cursor then holds the result set. *)
Definition cur_execute (cur : cursor) (query : string) : M cursor :=
  on_connection "execute" (Some (cur_conn cur)) (λ h w,
    let w' := {| conns := conns w; trace := trace w ++ [SqlExecute h query] |} in
    match execute_outcome E w h query with
    | Ok rows => (Ok {| cur_conn := h; cur_rows := rows |}, w')
    | Raise e => (Raise e, w')
    end).

(** [cur.executemany(query, data)] *)
Definition cur_executemany (cur : cursor) (query : string)
    (data : list row) : M unit :=
  on_connection "executemany" (Some (cur_conn cur)) (λ h w,
    let w' := {| conns := conns w;
                 trace := trace w ++ [SqlExecuteMany h query data] |} in
    outcome (executemany_outcome E w h query data) w').

(** [cur.fetchall()] *)
Definition cur_fetchall (cur : cursor) : M (list row) := ret (cur_rows cur).

(** [conn.rollback()]: always succeeds on an open connection. *)
Definition conn_rollback (c : connection) : M unit :=
  on_connection "rollback" c (λ h, emit (SqlRollback h)).

(** [conn.commit()] *)
Definition conn_commit (c : connection) : M unit :=
  on_connection "commit" c (λ h w,
    let w' := {| conns := conns w; trace := trace w ++ [SqlCommit h] |} in
    outcome (commit_outcome E w h) w').

(** [conn.close()]: closing a closed connection is allowed. *)
Definition conn_close (c : connection) : M unit :=
  match c with
  | None => raise (none_has_no "close")
  | Some h =>
      λ w, (Ok tt, {| conns := <[h := Closed]> (conns w);
                      trace := trace w ++ [SqlClose h] |})
  end.

(** [df.to_sql(name=name, con=con, if_exists='append', index=False)] *)
Definition df_to_sql (df : DataFrame) (name : string) (con : connection)
  : M unit :=
  match con with
  | None => raise (none_has_no "cursor")
  | Some h =>
      λ w,
        let w' := {| conns := conns w;
                     trace := trace w ++ [PdToSql h name df] |} in
        outcome (to_sql_outcome E w h df name) w'
  end.

(** [pd.read_sql(query, con)] *)
Definition pd_read_sql (query : string) (con : connection) : M DataFrame :=
  λ w, (read_sql_outcome E w con query,
        {| conns := conns w; trace := trace w ++ [PdReadSql con query] |}).

(** [bool(conn)]: a connection object is always true, [None] is false. *)
Definition truthy (c : connection) : bool :=
  match c with Some _ => true | None => false end.

(** ** insert_db *)

Definition insert_db (df : DataFrame) (db_path table_name : string)
  : M unit :=
  λ w,
    (* the first statement of the try block binds the local [conn] *)
    let '(connected, w1) := sqlite3_connect db_path w in
    let conn : option connection :=
      match connected with Ok h => Some (Some h) | Raise _ => None end in
    try_finally
      (try_except is_sqlite_error
         (h <- lift connected ;;
          run print (TAB +:+ "a. Connected to Sqlite") ;;
          (* Upload data to the database *)
          run df_to_sql df table_name (Some h) ;;
          run print (TAB +:+ "b. Inserted into Database") ;;
          run conn_commit (Some h) ;;
          conn_close (Some h))
         (λ error,
            print ("Failed to Insert into table " +:+ " " +:+ exn_str error)))
      (c <- lift (local_var "conn" conn) ;;
       if truthy c
       then run conn_close c ;;
            print (TAB +:+ "c. Sqlite connection is closed")
       else ret tt)
      w1.

(** ** class Database *)

Definition create_connection (db_path : string) : M connection :=
  try_except is_sqlite_error
    (conn <- sqlite3_connect db_path ;;
     run print "SUCCESS: Table Connected" ;;
     ret (Some conn))
    (λ e, run print (exn_str e) ;; ret None).

(** [Database(db_path)] *)
Definition Database_init (db_path : string) : M Database :=
  c <- create_connection db_path ;;
  ret {| conn := c |}.

Definition close_connection (self : Database) : M unit :=
  match conn self with
  | None => ret tt
  | Some h => conn_close (Some h)
  end.

Definition execute (self : Database) (operation query : string) : M unit :=
  try_except anything
    (cur <- conn_cursor (conn self) ;;
     _ <- cur_execute cur query ;;
     ret tt)
    (λ _,
       run print ("Error in " +:+ operation +:+ " operation") ;;
       conn_rollback (conn self)).

Definition new_table (self : Database) (name schema : string) : M unit :=
  let query := "CREATE TABLE " +:+ name +:+ " (" +:+ schema +:+ ");" in
  execute self "create new table" query.

Definition create (self : Database) (query : string) (data : list row)
  : M unit :=
  try_except anything
    (cur <- conn_cursor (conn self) ;;
     cur_executemany cur query data)
    (λ _,
       run print "error in insert operation" ;;
       conn_rollback (conn self)).

(** The statement [read] builds. *)
Definition read_query (table_name cols_needed : string)
    (conditions : option string) : string :=
  match conditions with
  | None => "SELECT " +:+ cols_needed +:+ " FROM " +:+ table_name
  | Some c => "SELECT " +:+ cols_needed +:+ " FROM " +:+ table_name
                +:+ " " +:+ c
  end.

(** [read] returns the fetched rows, or falls off the end of the
    function after the handler: Python's [None]. *)
Definition read (self : Database) (table_name cols_needed : string)
    (conditions : option string) : M (option (list row)) :=
  let query := read_query table_name cols_needed conditions in
  try_except anything
    (cur <- conn_cursor (conn self) ;;
     cur <- cur_execute cur query ;;
     rows <- cur_fetchall cur ;;
     ret (Some rows))
    (λ _,
       run print "error in select operation" ;;
       run conn_rollback (conn self) ;;
       ret None).

(** The loop of [update]: one assignment and one separator per key. *)
Fixpoint update_loop (keys : list string) (new_vals : dict string)
    (query : string) : result string :=
  match keys with
  | [] => Ok query
  | key :: rest =>
      result_bind (dict_getitem new_vals key) (λ v,
        update_loop rest new_vals (query +:+ key +:+ " " +:+ v +:+ " , "))
  end.

(** The statement [update] builds. *)
Definition update_query (table_name : string) (new_vals : dict string)
    (prim_key_id : list string) : result string :=
  let query := "UPDATE " +:+ table_name +:+ " SET " in
  result_bind (update_loop (dict_keys new_vals) new_vals query) (λ query,
    (* remove last comma, and space *)
    let query := str_slice_to query (Z.of_nat (String.length query) - 3) in
    result_bind (list_getitem prim_key_id 0) (λ k,
      result_bind (list_getitem prim_key_id 1) (λ v,
        Ok (query +:+ " WHERE " +:+ k +:+ " = " +:+ v)))).

Definition update (self : Database) (table_name : string)
    (new_vals : dict string) (prim_key_id : list string) : M unit :=
  query <- lift (update_query table_name new_vals prim_key_id) ;;
  execute self "update" query.

(** The statement [delete] builds. *)
Definition delete_query (table_name : string) (prim_key_id : list string)
  : result string :=
  result_bind (list_getitem prim_key_id 0) (λ k,
    result_bind (list_getitem prim_key_id 1) (λ v,
      Ok ("DELETE FROM " +:+ table_name +:+ " WHERE " +:+ k +:+ " = " +:+ v))).

Definition delete (self : Database) (table_name : string)
    (prim_key_id : list string) : M unit :=
  query <- lift (delete_query table_name prim_key_id) ;;
  execute self "delete" query.

(** ** pull_data *)

(** The nested function [get_query]; [image_date] is the argument of the
    enclosing call, [None] when it is left out. *)
Definition get_query (image_date : option string)
    (filtered_size all : bool) : result string :=
  if negb all then
    let expected_fmt := "%Y%m%d" in
    (* the try block, with the local [date] as far as it got bound *)
    let '(date, attempt) :=
      match strptime_Ymd image_date with
      | Raise e => (None, Raise e)
      | Ok d =>
          (* convert date formatting for sql table *)
          let date := strftime_Y_m_d d in
          (* Access sql database using filtered size query *)
          let size_suffix := if filtered_size then "_filtered_size" else "" in
          (Some date,
           result_bind
             (map_getitem SELECT_CMD ("select_images" +:+ size_suffix))
             (λ template, str_format template date))
      end in
    match attempt with
    | Ok query => Ok query
    | Raise _ =>
        (* except: the message is built from the local [date] *)
        result_bind (local_var "date" date) (λ date,
          Raise (ValueError ("time data '" +:+ date
                               +:+ "' does not match format '"
                               +:+ expected_fmt +:+ "'")))
    end
  else map_getitem SELECT_CMD "select_all".

(** The set-up of the log file ([Logger], [getLogger], [section_break])
    belongs to utils.logger; it appears as one entry of the trace. *)
Definition pull_data (image_date : option string)
    (all filtered_size : bool) (db_path : string) : M DataFrame :=
  (* Log data *)
  run log_info (LogSection "SEASCAPE") ;;
  db <- Database_init db_path ;;
  (* Determine which query to run *)
  query <- lift (get_query image_date filtered_size all) ;;
  (* Pull data from database *)
  df <- pd_read_sql query (conn db) ;;
  (* Encode unlabeled images *)
  labels <- lift (df_getitem df IMG_LBL) ;;
  let df := df_setitem df IMG_LBL (fillna labels IMG_UNLBLED) in
  (* Log results *)
  run log_info LogSuccess ;;
  dates <- lift (df_getattr df "image_date") ;;
  run log_info (LogDates (unique dates)) ;;
  run log_info (LogSize (df_nrows df)) ;;
  labels <- lift (df_getitem df IMG_LBL) ;;
  run log_info (LogLabelDistribution labels) ;;
  ret df.

End DbUtil.

(** ** The statements as the specification words them *)

(** One assignment of the SET clause: [<col> <fragment>]. *)
Definition assignment (kv : string * string) : string :=
  kv.1 +:+ " " +:+ kv.2.

(** [sep.join(l)] *)
Fixpoint join (sep : string) (l : list string) : string :=
  match l with
  | [] => ""
  | [x] => x
  | x :: rest => x +:+ sep +:+ join sep rest
  end.

(** [UPDATE <table> SET <col1> <fragment1> , ... WHERE <col> = <value>] *)
Definition update_statement (table : string) (new_vals : dict string)
    (k v : string) : string :=
  "UPDATE " +:+ table +:+ " SET " +:+ join " , " (map assignment new_vals)
    +:+ " WHERE " +:+ k +:+ " = " +:+ v.

(** What the loop of [update] has accumulated before the trim: every
    assignment followed by the separator. *)
Definition assignments_with_separators (new_vals : dict string) : string :=
  fold_right (λ kv acc, assignment kv +:+ " , " +:+ acc) "" new_vals.






(** The name of the template for a date filter. *)
Definition select_images_name (filtered_size : bool) : string :=
  if filtered_size then "select_images_filtered_size" else "select_images".

(** The queries handed to [pd.read_sql], in order. *)
Definition queries_read (tr : list event) : list string :=
  omap (λ ev, match ev with PdReadSql _ q => Some q | _ => None end) tr.

(** [connect] either opens the file or raises a [sqlite3.Error]. *)
Definition connect_raises_only_sqlite (E : Engine) (db_path : string) : Prop :=
  ∀ w e, connect_outcome E db_path w = Some e → is_sqlite_error e = true.

(** The connections on which [commit] was called, in order. *)
Definition commits (tr : list event) : list handle :=
  omap (λ ev, match ev with SqlCommit h => Some h | _ => None end) tr.

(** The statements handed to [cursor.execute], in order. *)
Definition statements_executed (tr : list event) : list string :=
  omap (λ ev, match ev with SqlExecute _ q => Some q | _ => None end) tr.

(** The world in which [insert_db] calls [to_sql], after a successful
    [connect] from [w]. *)
Definition world_at_append (db_path : string) (w : world) : world :=
  {| conns := conns w ++ [Open];
     trace := trace w ++ [SqlConnect db_path;
                          Print (TAB +:+ "a. Connected to Sqlite")] |}.

(** The world in which [insert_db] calls [commit], after a successful
    [to_sql]. *)
Definition world_at_commit (df : DataFrame) (db_path table_name : string)
    (w : world) : world :=
  {| conns := conns w ++ [Open];
     trace := trace w ++ [SqlConnect db_path;
                          Print (TAB +:+ "a. Connected to Sqlite");
                          PdToSql (length (conns w)) table_name df;
                          Print (TAB +:+ "b. Inserted into Database")] |}.

(** The world in which [pull_data] opens its connection. *)
Definition world_at_connect (w : world) : world :=
  {| conns := conns w; trace := trace w ++ [Log (LogSection "SEASCAPE")] |}.

(** What [pull_data] does with the query it has chosen, on the
    connection of its [Database]: the statements of [pull_data] from
    [pd.read_sql] on. *)
Definition pull_data_from_query (IMG_LBL IMG_UNLBLED : string) (E : Engine)
    (query : string) (c : connection) : M DataFrame :=
  (df <- pd_read_sql E query c ;;
   labels <- lift (df_getitem df IMG_LBL) ;;
   let df := df_setitem df IMG_LBL (fillna labels IMG_UNLBLED) in
   run log_info LogSuccess ;;
   dates <- lift (df_getattr df "image_date") ;;
   run log_info (LogDates (unique dates)) ;;
   run log_info (LogSize (df_nrows df)) ;;
   labels <- lift (df_getitem df IMG_LBL) ;;
   run log_info (LogLabelDistribution labels) ;;
   ret df)%py.

(** The message of the [ValueError] that the handler of [get_query]
    raises. *)
Definition date_mismatch (date : string) : exn :=
  ValueError ("time data '" +:+ date +:+ "' does not match format '%Y%m%d'").

(** A text of digits and dashes only. *)
Definition date_text (s : string) : bool :=
  forallb (λ c, digit c || bool_decide (c = "-"%char))
          (list_ascii_of_string s).

(** ** Sample configuration and engines *)

Definition sample_select_cmd : gmap string string :=
  {[ "select_all" := "SELECT * FROM date_sampled";
     "select_images" :=
       "SELECT * FROM date_sampled WHERE image_date = '{}'";
     "select_images_filtered_size" :=
       "SELECT * FROM date_sampled WHERE image_date = '{}' AND size > 0" ]}.

Definition sample_table : DataFrame :=
  {| df_nrows := 3;
     df_cols :=
       [("image_date", [Str "2023-01-01"; Str "2023-01-01"; Str "2023-01-02"]);
        ("label", [Str "diatom"; NA; NA])] |}.

(** [sample_table] with its missing labels encoded. *)
Definition sample_table_filled : DataFrame :=
  {| df_nrows := 3;
     df_cols :=
       [("image_date", [Str "2023-01-01"; Str "2023-01-01"; Str "2023-01-02"]);
        ("label", [Str "diatom"; Str "unlabeled"; Str "unlabeled"])] |}.

(** An engine on which every call succeeds. *)
Definition working_engine : Engine := {|
  connect_outcome := λ _ _, None;
  execute_outcome := λ _ _ _, Ok [];
  executemany_outcome := λ _ _ _ _, None;
  commit_outcome := λ _ _, None;
  to_sql_outcome := λ _ _ _ _, None;
  read_sql_outcome := λ _ _ _, Ok sample_table;
  format_outcome := λ _ _, Raise (KeyError "0")
|}.

(** An engine that cannot open the database file. *)
Definition unopenable_engine : Engine := {|
  connect_outcome := λ _ _, Some (SqliteError "unable to open database file");
  execute_outcome := λ _ _ _, Ok [];
  executemany_outcome := λ _ _ _ _, None;
  commit_outcome := λ _ _, None;
  to_sql_outcome := λ _ _ _ _, None;
  read_sql_outcome := λ _ _ _, Raise (none_has_no "cursor");
  format_outcome := λ _ _, Raise (KeyError "0")
|}.

(** An engine that opens the file and refuses every statement. *)
Definition refusing_engine : Engine := {|
  connect_outcome := λ _ _, None;
  execute_outcome := λ _ _ _, Raise (SqliteError "no such table: images");
  executemany_outcome := λ _ _ _ _, Some (SqliteError "no such table: images");
  commit_outcome := λ _ _, None;
  to_sql_outcome := λ _ _ _ _, Some (SqliteError "no such table: images");
  read_sql_outcome := λ _ _ _, Raise (OtherError "Execution failed on sql");
  format_outcome := λ _ _, Raise (KeyError "0")
|}.

(** * Properties *)

(** ** Strings *)

Lemma str_app_cons (c : ascii) (a b : string) :
  String c a +:+ b = String c (a +:+ b).
Proof. reflexivity. Qed.

Lemma str_app_nil_l (a : string) : "" +:+ a = a.
Proof. reflexivity. Qed.

Lemma str_app_assoc (a b c : string) : (a +:+ b) +:+ c = a +:+ b +:+ c.
Proof.
  induction a as [|x a IH]; [reflexivity|].
  by rewrite !str_app_cons, IH.
Qed.

Lemma str_app_nil_r (a : string) : a +:+ "" = a.
Proof.
  induction a as [|x a IH]; [reflexivity|]. by rewrite str_app_cons, IH.
Qed.

Lemma str_length_app (a b : string) :
  String.length (a +:+ b) = String.length a + String.length b.
Proof.
  induction a as [|x a IH]; [reflexivity|].
  rewrite str_app_cons. simpl. by rewrite IH.
Qed.

Lemma str_take_app (a b : string) : str_take (String.length a) (a +:+ b) = a.
Proof.
  induction a as [|x a IH]; [by destruct b|].
  rewrite str_app_cons. simpl. by rewrite IH.
Qed.

(** Cutting the last [String.length b] characters off [a +:+ b] leaves
    [a], whatever [a] is. *)
Lemma str_slice_to_app (a b : string) :
  str_slice_to (a +:+ b)
    (Z.of_nat (String.length (a +:+ b)) - Z.of_nat (String.length b)) = a.
Proof.
  unfold str_slice_to. rewrite str_length_app.
  destruct (Z.ltb_spec
              (Z.of_nat (String.length a + String.length b)
               - Z.of_nat (String.length b)) 0) as [Hneg|_]; [lia|].
  replace (Z.to_nat _) with (String.length a) by lia.
  apply str_take_app.
Qed.

(** ** Database.update *)

Lemma dict_getitem_NoDup {V} (d : dict V) (k : string) (v : V) :
  NoDup (dict_keys d) → (k, v) ∈ d → dict_getitem d k = Ok v.
Proof.
  induction d as [|[k' v'] d IH]; simpl; intros Hnd Hin.
  - by apply elem_of_nil in Hin.
  - apply NoDup_cons in Hnd as [Hk' Hnd].
    apply elem_of_cons in Hin as [Heq|Hin].
    + inversion Heq; subst. by rewrite decide_True.
    + rewrite decide_False; [by apply IH|].
      intros ->. apply Hk'. unfold dict_keys.
      apply list_elem_of_fmap. by exists (k, v).
Qed.

Lemma update_loop_items (new_vals items : dict string) (query : string) :
  (∀ kv, kv ∈ items → dict_getitem new_vals kv.1 = Ok kv.2) →
  update_loop (dict_keys items) new_vals query
  = Ok (query +:+ assignments_with_separators items).
Proof.
  revert query. induction items as [|[k v] items IH]; intros query Hget.
  - simpl. by rewrite str_app_nil_r.
  - pose proof (Hget (k, v) (list_elem_of_here _ _)) as Hkv.
    simpl in Hkv |- *. rewrite Hkv. simpl.
    rewrite IH by (intros kv ?; apply Hget; by apply list_elem_of_further).
    unfold assignment. simpl. by rewrite !str_app_assoc.
Qed.

Lemma assignments_join (new_vals : dict string) :
  new_vals ≠ [] →
  assignments_with_separators new_vals
  = join " , " (map assignment new_vals) +:+ " , ".
Proof.
  induction new_vals as [|kv [|kv' rest] IH]; intros Hne; [done|..].
  - reflexivity.
  - change (assignments_with_separators (kv :: kv' :: rest))
      with (assignment kv +:+ " , " +:+ assignments_with_separators (kv' :: rest)).
    rewrite IH by done.
    change (join " , " (map assignment (kv :: kv' :: rest)))
      with (assignment kv +:+ " , " +:+ join " , " (map assignment (kv' :: rest))).
    by rewrite !str_app_assoc.
Qed.

Lemma update_query_loop (table : string) (new_vals : dict string)
    (k v : string) :
  NoDup (dict_keys new_vals) →
  update_loop (dict_keys new_vals) new_vals ("UPDATE " +:+ table +:+ " SET ")
  = Ok (("UPDATE " +:+ table +:+ " SET ")
          +:+ assignments_with_separators new_vals).
Proof.
  intros Hnd. apply update_loop_items.
  intros [k' v'] Hin. by apply dict_getitem_NoDup.
Qed.

(** C5: for a non-empty mapping with distinct keys and a two-element row
    identifier, [update] builds exactly
    [UPDATE <table> SET <col1> <fragment1> , ... <colN> <fragmentN>
     WHERE <col> = <value>] and hands it to [execute]; what the loop
    accumulated is that SET clause followed by one separator, and the trim
    removes precisely that separator. *)
Theorem update_builds_statement (table : string) (new_vals : dict string)
    (k v : string) :
  new_vals ≠ [] →
  NoDup (dict_keys new_vals) →
  let kept :=
    "UPDATE " +:+ table +:+ " SET " +:+ join " , " (map assignment new_vals) in
  update_loop (dict_keys new_vals) new_vals ("UPDATE " +:+ table +:+ " SET ")
    = Ok (kept +:+ " , ")
  ∧ str_slice_to (kept +:+ " , ")
      (Z.of_nat (String.length (kept +:+ " , ")) - 3) = kept
  ∧ update_query table new_vals [k; v]
    = Ok (update_statement table new_vals k v)
  ∧ ∀ E self,
      update E self table new_vals [k; v]
      = execute E self "update" (update_statement table new_vals k v).
Proof.
  intros Hne Hnd kept.
  assert (Hloop :
    update_loop (dict_keys new_vals) new_vals ("UPDATE " +:+ table +:+ " SET ")
    = Ok (kept +:+ " , ")).
  { rewrite update_query_loop by done.
    rewrite assignments_join by done.
    unfold kept. by rewrite !str_app_assoc. }
  assert (Hcut : str_slice_to (kept +:+ " , ")
            (Z.of_nat (String.length (kept +:+ " , ")) - 3) = kept).
  { apply (str_slice_to_app kept " , "). }
  assert (Hq : update_query table new_vals [k; v]
               = Ok (update_statement table new_vals k v)).
  { unfold update_query. rewrite Hloop.
    cbn [result_bind list_getitem lookup list_lookup].
    rewrite Hcut.
    unfold update_statement, kept. by rewrite !str_app_assoc. }
  repeat split; try done.
  intros E self. unfold update. by rewrite Hq.
Qed.

Lemma update_builds_statement_witness :
  update_query "images" [("label", "= 'diatom'"); ("size", "= 3")] ["id"; "7"]
  = Ok "UPDATE images SET label = 'diatom' , size = 3 WHERE id = 7".
Proof.
  apply (update_builds_statement "images"
           [("label", "= 'diatom'"); ("size", "= 3")] "id" "7").
  - discriminate.
  - unfold dict_keys; simpl. apply NoDup_cons. split.
    + intros Hin. apply list_elem_of_singleton in Hin. discriminate.
    + apply NoDup_singleton.
Defined.

(** C6: with an empty mapping the loop adds nothing, the unconditional
    trim of three characters eats the [ET ] of the keyword, and the
    statement handed to [execute] is [UPDATE <table> S WHERE <col> =
    <value>]: no text put after [UPDATE <table> SET ] equals it. *)
Theorem update_empty_mapping_statement (table k v : string) :
  update_query table [] [k; v]
  = Ok ("UPDATE " +:+ table +:+ " S WHERE " +:+ k +:+ " = " +:+ v)
  ∧ (∀ rest : string,
       "UPDATE " +:+ table +:+ " S WHERE " +:+ k +:+ " = " +:+ v
       ≠ "UPDATE " +:+ table +:+ " SET " +:+ rest)
  ∧ ∀ E self,
      update E self table [] [k; v]
      = execute E self "update"
          ("UPDATE " +:+ table +:+ " S WHERE " +:+ k +:+ " = " +:+ v).
Proof.
  assert (Hq : update_query table [] [k; v]
    = Ok ("UPDATE " +:+ table +:+ " S WHERE " +:+ k +:+ " = " +:+ v)).
  { unfold update_query.
    cbn [result_bind list_getitem lookup list_lookup update_loop dict_keys map].
    replace ("UPDATE " +:+ table +:+ " SET ")
      with (("UPDATE " +:+ table +:+ " S") +:+ "ET ")
      by (by rewrite !str_app_assoc).
    pose proof (str_slice_to_app ("UPDATE " +:+ table +:+ " S") "ET ") as Hcut.
    change (Z.of_nat (String.length "ET ")) with 3%Z in Hcut.
    rewrite Hcut. by rewrite !str_app_assoc. }
  split; [done|]. split.
  - intros rest Heq.
    apply (inj (String.append "UPDATE ")) in Heq.
    apply (inj (String.append table)) in Heq.
    discriminate Heq.
  - intros E self. unfold update. by rewrite Hq.
Qed.

(** ** Running the monad *)

Ltac unfold_monad :=
  unfold try_finally, try_except, bind, lift, ret, raise, outcome, print,
    log_info, emit, on_connection, anything in *.

Lemma live_new_connection (cs : list conn_state) (tr : list event) :
  live (length cs) {| conns := cs ++ [Open]; trace := tr |} = true.
Proof.
  unfold live; simpl.
  rewrite lookup_app_r by lia. by rewrite Nat.sub_diag.
Qed.

Lemma close_new_connection (cs : list conn_state) (st : conn_state) :
  <[length cs := Closed]> (cs ++ [st]) = cs ++ [Closed].
Proof.
  rewrite insert_app_r_alt by lia. by rewrite Nat.sub_diag.
Qed.

(** ** Database.execute *)

Lemma Database_init_unopenable (E : Engine) (db_path : string) (w : world)
    (e : exn) :
  connect_outcome E db_path w = Some e →
  is_sqlite_error e = true →
  Database_init E db_path w
  = (Ok {| conn := None |},
     {| conns := conns w;
        trace := trace w ++ [SqlConnect db_path; Print (exn_str e)] |}).
Proof.
  intros Hc He.
  unfold Database_init, create_connection, sqlite3_connect. unfold_monad.
  rewrite Hc. simpl. rewrite He. simpl. by rewrite <- app_assoc.
Qed.

(** On an open connection a failing statement is logged under the
    label, rolled back, and nothing is raised. *)
Lemma execute_failure_swallowed (E : Engine) (self : Database) (h : handle)
    (operation query : string) (w : world) (e : exn) :
  conn self = Some h →
  live h w = true →
  execute_outcome E w h query = Raise e →
  execute E self operation query w
  = (Ok tt,
     {| conns := conns w;
        trace := trace w ++ [SqlExecute h query;
                             Print ("Error in " +:+ operation +:+ " operation");
                             SqlRollback h] |}).
Proof.
  intros Hc Hl He.
  unfold execute, conn_cursor, cur_execute, conn_rollback. unfold_monad.
  rewrite Hc. cbn. rewrite Hl. cbn. rewrite Hl, He. cbn.
  unfold live in *. cbn. rewrite Hl.
  by rewrite <- !app_assoc.
Qed.

(** C2: on a [Database] whose connection handle is [None] (what
    [create_connection] leaves after a failed open), [execute] prints the
    message tagged with the label and then raises from its own handler:
    the [AttributeError] of [None.rollback] escapes to the caller. *)
Theorem execute_null_connection_raises (E : Engine)
    (operation query : string) (w : world) :
  execute E {| conn := None |} operation query w
  = (Raise (none_has_no "rollback"),
     {| conns := conns w;
        trace := trace w
                 ++ [Print ("Error in " +:+ operation +:+ " operation")] |})
  ∧ fst ((db <- Database_init unopenable_engine "/no/such/dir/images.db" ;;
          execute unopenable_engine db "update"
            "UPDATE images SET label = 'diatom' WHERE id = 7") world0)
    = Raise (AttributeError "'NoneType' object has no attribute 'rollback'").
Proof. split; reflexivity. Qed.

(** ** insert_db *)

(** C3: when the database file cannot be opened, the [sqlite3.Error] of
    [connect] is caught and printed, but the [finally] block then reads
    the local [conn], which was never bound: an [UnboundLocalError]
    escapes [insert_db]. *)
Theorem insert_db_unopenable_raises (E : Engine) (df : DataFrame)
    (db_path table_name : string) (w : world) (msg : string) :
  connect_outcome E db_path w = Some (SqliteError msg) →
  insert_db E df db_path table_name w
  = (Raise (UnboundLocalError "conn"),
     {| conns := conns w;
        trace := trace w
                 ++ [SqlConnect db_path;
                     Print ("Failed to Insert into table " +:+ " " +:+ msg)] |}).
Proof.
  intros Hc. unfold insert_db, sqlite3_connect. rewrite Hc.
  unfold_monad. simpl. by rewrite <- app_assoc.
Qed.

Lemma insert_db_unopenable_raises_witness :
  fst (insert_db unopenable_engine sample_table "/no/such/dir/images.db"
         "images" world0)
  = Raise (UnboundLocalError "conn").
Proof.
  rewrite (insert_db_unopenable_raises unopenable_engine sample_table
             "/no/such/dir/images.db" "images" world0
             "unable to open database file"); reflexivity.
Defined.

(** A database error during the append, on the other hand, is caught. *)
Lemma insert_db_append_error_swallowed (E : Engine) (df : DataFrame)
    (db_path table_name : string) (w : world) (msg : string) :
  connect_outcome E db_path w = None →
  to_sql_outcome E
    {| conns := conns w ++ [Open];
       trace := (trace w ++ [SqlConnect db_path])
                ++ [Print (TAB +:+ "a. Connected to Sqlite")] |}
    (length (conns w)) df table_name = Some (SqliteError msg) →
  fst (insert_db E df db_path table_name w) = Ok tt.
Proof.
  intros Hc Hs. unfold insert_db, sqlite3_connect. rewrite Hc.
  unfold df_to_sql, conn_commit, conn_close. unfold_monad. simpl.
  rewrite Hs. reflexivity.
Qed.

(** C4: whatever the engine answers, [insert_db] leaves every earlier
    connection as it was, and the connection it opened, if [connect]
    returned one, is closed when the call completes: on success, on a
    database error and on any other exception of the body. *)
Theorem insert_db_closes_connection (E : Engine) (df : DataFrame)
    (db_path table_name : string) (w : world) :
  conns (snd (insert_db E df db_path table_name w))
  = conns w ++ match connect_outcome E db_path w with
               | None => [Closed]
               | Some _ => []
               end.
Proof.
  unfold insert_db, sqlite3_connect.
  destruct (connect_outcome E db_path w) as [e|] eqn:Hc.
  - unfold_monad. simpl. rewrite app_nil_r.
    destruct (is_sqlite_error e); reflexivity.
  - unfold df_to_sql, conn_commit, conn_close. unfold_monad. simpl.
    destruct (to_sql_outcome E _ _ df table_name) as [e1|]; simpl.
    + destruct (is_sqlite_error e1); simpl; apply close_new_connection.
    + rewrite live_new_connection. simpl.
      destruct (commit_outcome E _ _) as [e2|]; simpl.
      * destruct (is_sqlite_error e2); simpl; apply close_new_connection.
      * rewrite close_new_connection. apply close_new_connection.
Qed.

(** ** Database.read *)

(** A cursor can only be had from an open connection, on which the
    rollback of the handler cannot fail. *)
Lemma conn_cursor_open (c : connection) (w w' : world) (cur : cursor) :
  conn_cursor c w = (Ok cur, w') →
  c = Some (cur_conn cur) ∧ live (cur_conn cur) w = true ∧ w' = w
  ∧ cur_rows cur = [].
Proof.
  unfold conn_cursor. unfold_monad.
  destruct c as [h|]; [|discriminate].
  destruct (live h w) eqn:Hl; [|discriminate].
  intros [= <- <-]. done.
Qed.

(** C10: when the SELECT statement built by [read] is handed to the
    engine and fails there, [read] prints, rolls back and returns [None],
    which is not the empty list; when the statement succeeds, [read]
    returns the list of fetched rows, the empty list if no row matches. *)
Theorem read_failure_returns_None (E : Engine) (self : Database)
    (table_name cols_needed : string) (conditions : option string)
    (w : world) (cur : cursor) :
  let query := read_query table_name cols_needed conditions in
  fst (conn_cursor (conn self) w) = Ok cur →
  (∀ e, fst (cur_execute E cur query w) = Raise e →
        read E self table_name cols_needed conditions w
        = (Ok None,
           {| conns := conns w;
              trace := trace w ++ [SqlExecute (cur_conn cur) query;
                                   Print "error in select operation";
                                   SqlRollback (cur_conn cur)] |})
        ∧ @Ok (option (list row)) None ≠ Ok (Some []))
  ∧ (∀ cur', fst (cur_execute E cur query w) = Ok cur' →
        fst (read E self table_name cols_needed conditions w)
        = Ok (Some (cur_rows cur'))).
Proof.
  intros query Hcur.
  destruct (conn_cursor (conn self) w) as [r w'] eqn:Hcw.
  simpl in Hcur; subst r.
  apply conn_cursor_open in Hcw as (Hc & Hl & -> & Hrows).
  unfold read, cur_execute, conn_cursor, conn_rollback, cur_fetchall.
  fold query. unfold_monad. rewrite Hc. cbn. rewrite Hl. cbn. rewrite Hl.
  split.
  - intros e He.
    destruct (execute_outcome E w (cur_conn cur) query) as [rows|e'];
      [discriminate|].
    split; [|discriminate]. cbn.
    unfold live in *. cbn. rewrite Hl. by rewrite <- !app_assoc.
  - intros cur' Hok.
    destruct (execute_outcome E w (cur_conn cur) query) as [rows|e'];
      [|discriminate].
    cbn in *. by injection Hok as <-.
Qed.

Lemma read_failure_returns_None_witness :
  fst (read refusing_engine {| conn := Some 0 |} "images" "*" None
         {| conns := [Open]; trace := [] |}) = Ok None.
Proof.
  pose proof (read_failure_returns_None refusing_engine {| conn := Some 0 |}
                "images" "*" None {| conns := [Open]; trace := [] |}
                {| cur_conn := 0; cur_rows := [] |} eq_refl) as [Hfail _].
  destruct (Hfail (SqliteError "no such table: images") eq_refl) as [-> _].
  reflexivity.
Defined.

(** A successful query without a matching row gives the empty list. *)
Lemma read_no_rows_returns_empty_list :
  fst (read working_engine {| conn := Some 0 |} "images" "*"
         (Some "WHERE label = 'none'") {| conns := [Open]; trace := [] |})
  = Ok (Some []).
Proof. reflexivity. Qed.

(** Without a connection no statement reaches the engine, and it is the
    handler of [read] that raises. *)
Lemma read_null_connection_raises (E : Engine)
    (table_name cols_needed : string) (conditions : option string)
    (w : world) :
  fst (read E {| conn := None |} table_name cols_needed conditions w)
  = Raise (none_has_no "rollback").
Proof. reflexivity. Qed.

(** ** Dates *)















(** ** Templates *)





(** ** pull_data *)

Lemma bind_Ok {A B} (m : M A) (k : A → M B) (w w' : world) (b : B) :
  bind m k w = (Ok b, w') →
  ∃ a w1, m w = (Ok a, w1) ∧ k a w1 = (Ok b, w').
Proof.
  unfold bind. destruct (m w) as [[a|e] w1]; [|discriminate].
  intros H. by exists a, w1.
Qed.

Lemma lift_Ok {A} (r : result A) (w w' : world) (a : A) :
  lift r w = (Ok a, w') → r = Ok a ∧ w' = w.
Proof. unfold lift. by intros [= -> ->]. Qed.

Lemma cols_lookup_assign (name : string) (col : list cell)
    (cols : list (string * list cell)) :
  cols_lookup name (cols_assign name col cols) = Some col.
Proof.
  induction cols as [|[n c] cols IH]; simpl.
  - by rewrite decide_True.
  - destruct (decide (n = name)) as [->|Hne]; simpl.
    + by rewrite decide_True.
    + by rewrite decide_False.
Qed.

Lemma df_getitem_setitem (df : DataFrame) (name : string) (col : list cell) :
  df_getitem (df_setitem df name col) name = Ok col.
Proof. unfold df_getitem, df_setitem; simpl. by rewrite cols_lookup_assign. Qed.

(** Row by row, [fillna] keeps a value that is there and puts the
    sentinel where there is none. *)
Lemma fillna_rows (col : list cell) (value : string) :
  Forall2 (λ old new,
             new ≠ NA ∧ (new = old ∨ (old = NA ∧ new = Str value)))
          col (fillna col value).
Proof.
  induction col as [|c col IH]; simpl; constructor; [|done].
  destruct c; split; (discriminate || auto).
Qed.

Section PullData.

Variable IMG_LBL : string.
Variable IMG_UNLBLED : string.
Variable SELECT_CMD : gmap string string.
Variable E : Engine.

(** [Database(db_path)] returns, with or without a connection, and
    reads nothing. *)
Lemma Database_init_returns (db_path : string) (w : world) :
  connect_raises_only_sqlite E db_path →
  ∃ db w', Database_init E db_path w = (Ok db, w')
           ∧ queries_read (trace w') = queries_read (trace w).
Proof.
  intros Hconn.
  unfold Database_init, create_connection, sqlite3_connect. unfold_monad.
  destruct (connect_outcome E db_path w) as [e|] eqn:Hc; cbn.
  - rewrite (Hconn w e Hc). cbn. eexists _, _. split; [reflexivity|].
    cbn. unfold queries_read. rewrite !omap_app. cbn.
    by rewrite !app_nil_r.
  - eexists _, _. split; [reflexivity|].
    cbn. unfold queries_read. rewrite !omap_app. cbn.
    by rewrite !app_nil_r.
Qed.

(** Up to the choice of the query, [pull_data] cannot fail. *)
Lemma pull_data_reaches_query (image_date : option string)
    (all filtered_size : bool) (db_path : string) (w : world) :
  connect_raises_only_sqlite E db_path →
  ∃ db w1,
    queries_read (trace w1) = queries_read (trace w)
    ∧ pull_data IMG_LBL IMG_UNLBLED SELECT_CMD E image_date all
        filtered_size db_path w
      = match get_query SELECT_CMD E image_date filtered_size all with
        | Raise e => (Raise e, w1)
        | Ok query =>
            (df <- pd_read_sql E query (conn db) ;;
             labels <- lift (df_getitem df IMG_LBL) ;;
             let df := df_setitem df IMG_LBL (fillna labels IMG_UNLBLED) in
             run log_info LogSuccess ;;
             dates <- lift (df_getattr df "image_date") ;;
             run log_info (LogDates (unique dates)) ;;
             run log_info (LogSize (df_nrows df)) ;;
             labels <- lift (df_getitem df IMG_LBL) ;;
             run log_info (LogLabelDistribution labels) ;;
             ret df) w1
        end.
Proof.
  intros Hconn.
  destruct (Database_init_returns db_path
              {| conns := conns w;
                 trace := trace w ++ [Log (LogSection "SEASCAPE")] |} Hconn)
    as (db & w1 & Hinit & Htr).
  exists db, w1. split.
  - rewrite Htr. cbn. unfold queries_read. rewrite omap_app. cbn.
    by rewrite app_nil_r.
  - unfold pull_data.
    unfold bind at 1. unfold log_info at 1, emit at 1.
    unfold bind at 1. rewrite Hinit.
    unfold bind at 1. unfold lift at 1.
    by destruct (get_query SELECT_CMD E image_date filtered_size all).
Qed.

(** C1: with [all = false] and an [image_date] that [strptime] refuses
    (a string in another format, or [None]), the handler of [get_query]
    builds its message from the local [date], which the failed
    statement never bound: what reaches the caller of [pull_data] is an
    [UnboundLocalError], not the [ValueError] with the format-mismatch
    message that the handler spells out. *)
Theorem pull_data_bad_date_raises_unbound_local
    (image_date : option string) (filtered_size : bool) (e : exn) :
  strptime_Ymd image_date = Raise e →
  get_query SELECT_CMD E image_date filtered_size false
  = Raise (UnboundLocalError "date")
  ∧ (∀ msg, get_query SELECT_CMD E image_date filtered_size false
            ≠ Raise (ValueError msg))
  ∧ ∀ db_path w,
      connect_raises_only_sqlite E db_path →
      fst (pull_data IMG_LBL IMG_UNLBLED SELECT_CMD E image_date false
             filtered_size db_path w)
      = Raise (UnboundLocalError "date").
Proof.
  intros Hparse.
  assert (Hq : get_query SELECT_CMD E image_date filtered_size false
               = Raise (UnboundLocalError "date")).
  { unfold get_query. cbn [negb]. by rewrite Hparse. }
  split; [done|]. split.
  - intros msg. by rewrite Hq.
  - intros db_path w Hconn.
    destruct (pull_data_reaches_query image_date false filtered_size
                db_path w Hconn) as (db & w1 & _ & ->).
    by rewrite Hq.
Qed.

(** What [pull_data] does once the query is chosen reads that query
    and no other. *)
Lemma pull_data_tail_reads (query : string) (c : connection) (w : world) :
  queries_read (trace (snd (
    (df <- pd_read_sql E query c ;;
     labels <- lift (df_getitem df IMG_LBL) ;;
     let df := df_setitem df IMG_LBL (fillna labels IMG_UNLBLED) in
     run log_info LogSuccess ;;
     dates <- lift (df_getattr df "image_date") ;;
     run log_info (LogDates (unique dates)) ;;
     run log_info (LogSize (df_nrows df)) ;;
     labels <- lift (df_getitem df IMG_LBL) ;;
     run log_info (LogLabelDistribution labels) ;;
     ret df) w)))
  = queries_read (trace w) ++ [query].
Proof.
  unfold pd_read_sql. unfold_monad.
  destruct (read_sql_outcome E w c query) as [df|e]; cbn;
    [destruct (df_getitem df IMG_LBL) as [labels|e]; cbn;
     [rewrite df_getitem_setitem;
      destruct (df_getattr _ "image_date") as [dates|e]; cbn|]|];
    unfold queries_read; rewrite ?omap_app; cbn;
    by rewrite ?app_nil_r.
Qed.


(** C8: with [all = true] the query is the entry [select_all] of the
    template set, whatever [image_date] and [filtered_size] are, and
    the date is not parsed: [pull_data] does the same for every
    [image_date], well-formed or not, and every [filtered_size], and
    when the template is there, [get_query] returns it and it is the
    one query that [pull_data] hands to [pd.read_sql]. *)
Theorem pull_data_all_ignores_date (image_date image_date' : option string)
    (filtered_size filtered_size' : bool) :
  get_query SELECT_CMD E image_date filtered_size true
  = map_getitem SELECT_CMD "select_all"
  ∧ (∀ db_path w,
       pull_data IMG_LBL IMG_UNLBLED SELECT_CMD E image_date true
         filtered_size db_path w
       = pull_data IMG_LBL IMG_UNLBLED SELECT_CMD E image_date' true
           filtered_size' db_path w)
  ∧ ∀ template,
      SELECT_CMD !! "select_all" = Some template →
      get_query SELECT_CMD E image_date filtered_size true = Ok template
      ∧ ∀ db_path w,
          connect_raises_only_sqlite E db_path →
          queries_read (trace (snd (
            pull_data IMG_LBL IMG_UNLBLED SELECT_CMD E image_date true
              filtered_size db_path w)))
          = queries_read (trace w) ++ [template]
          ∧ ∃ db w1,
              queries_read (trace w1) = queries_read (trace w)
              ∧ pull_data IMG_LBL IMG_UNLBLED SELECT_CMD E image_date true
                  filtered_size db_path w
                = pull_data_from_query IMG_LBL IMG_UNLBLED E template
                    (conn db) w1.
Proof.
  split; [reflexivity|]. split; [reflexivity|].
  intros template Htemplate.
  assert (Hq : get_query SELECT_CMD E image_date filtered_size true
               = Ok template).
  { unfold get_query. cbn [negb]. unfold map_getitem. by rewrite Htemplate. }
  split; [done|].
  intros db_path w Hconn.
  destruct (pull_data_reaches_query image_date true filtered_size
              db_path w Hconn) as (db & w1 & Htr & Hpull).
  rewrite Hq in Hpull. split.
  - rewrite Hpull, pull_data_tail_reads. by rewrite Htr.
  - exists db, w1. split; [done|]. exact Hpull.
Qed.

(** C9: in the table a successful [pull_data] returns, the label
    column is the fetched label column after [fillna]: row by row the
    entry is the fetched value, or the sentinel [IMG_UNLBLED] where the
    fetched entry was missing, and it is never missing. *)
Theorem pull_data_labels_filled (image_date : option string)
    (all filtered_size : bool) (db_path : string) (w w' : world)
    (df : DataFrame) :
  pull_data IMG_LBL IMG_UNLBLED SELECT_CMD E image_date all filtered_size
    db_path w = (Ok df, w') →
  ∃ fetched labels w0 c query,
    read_sql_outcome E w0 c query = Ok fetched
    ∧ df_getitem fetched IMG_LBL = Ok labels
    ∧ df = df_setitem fetched IMG_LBL (fillna labels IMG_UNLBLED)
    ∧ df_getitem df IMG_LBL = Ok (fillna labels IMG_UNLBLED)
    ∧ Forall2 (λ old new,
                 new ≠ NA
                 ∧ (new = old ∨ (old = NA ∧ new = Str IMG_UNLBLED)))
              labels (fillna labels IMG_UNLBLED)
    ∧ Forall (λ new, new ≠ NA) (fillna labels IMG_UNLBLED).
Proof.
  unfold pull_data. intros H.
  apply bind_Ok in H as (_ & w0 & _ & H).
  apply bind_Ok in H as (db & w1 & _ & H).
  apply bind_Ok in H as (query & w2 & _ & H).
  apply bind_Ok in H as (fetched & w3 & Hread & H).
  apply bind_Ok in H as (labels & w4 & [Hlabels ->]%lift_Ok & H).
  cbv zeta in H.
  apply bind_Ok in H as (_ & w5 & _ & H).
  apply bind_Ok in H as (dates & w6 & _ & H).
  apply bind_Ok in H as (_ & w7 & _ & H).
  apply bind_Ok in H as (_ & w8 & _ & H).
  apply bind_Ok in H as (labels' & w9 & _ & H).
  apply bind_Ok in H as (_ & w10 & _ & H).
  unfold ret in H. injection H as <- _.
  unfold pd_read_sql in Hread. injection Hread as Hread _.
  exists fetched, labels, w2, (conn db), query.
  split; [done|]. split; [done|]. split; [done|].
  split; [apply df_getitem_setitem|].
  split; [apply fillna_rows|].
  pose proof (fillna_rows labels IMG_UNLBLED) as Hrows.
  apply Forall_forall. intros new Hin.
  apply list_elem_of_lookup in Hin as [i Hi].
  destruct (Forall2_lookup_r _ _ _ _ _ Hrows Hi) as (old & _ & Hnew & _).
  done.
Qed.

End PullData.

Lemma pull_data_bad_date_raises_unbound_local_witness :
  strptime_Ymd (Some "2023-01-01")
  = Raise (ValueError "time data '2023-01-01' does not match format '%Y%m%d'")
  ∧ get_query sample_select_cmd working_engine (Some "2023-01-01") false false
    = Raise (UnboundLocalError "date")
  ∧ fst (pull_data "label" "unlabeled" sample_select_cmd working_engine
           (Some "2023-01-01") false false "images.db" world0)
    = Raise (UnboundLocalError "date").
Proof.
  pose proof (pull_data_bad_date_raises_unbound_local "label" "unlabeled"
                sample_select_cmd working_engine (Some "2023-01-01") false
                _ eq_refl) as (Hq & _ & Hpull).
  split; [reflexivity|]. split; [exact Hq|].
  apply Hpull. intros w e. discriminate.
Defined.



Lemma pull_data_all_ignores_date_witness :
  get_query sample_select_cmd working_engine (Some "2023-01-01") true true
  = Ok "SELECT * FROM date_sampled"
  ∧ queries_read (trace (snd (
      pull_data "label" "unlabeled" sample_select_cmd working_engine
        (Some "2023-01-01") true true "images.db" world0)))
    = ["SELECT * FROM date_sampled"].
Proof.
  destruct (pull_data_all_ignores_date "label" "unlabeled" sample_select_cmd
              working_engine (Some "2023-01-01") None true false)
    as (_ & _ & Hsel).
  destruct (Hsel "SELECT * FROM date_sampled" eq_refl) as [Hq Hpull].
  split; [exact Hq|].
  apply (Hpull "images.db" world0). intros w e. discriminate.
Defined.

Lemma pull_data_labels_filled_witness :
  ∃ fetched labels w0 c query,
    read_sql_outcome working_engine w0 c query = Ok fetched
    ∧ df_getitem fetched "label" = Ok labels
    ∧ sample_table_filled = df_setitem fetched "label" (fillna labels "unlabeled")
    ∧ df_getitem sample_table_filled "label" = Ok (fillna labels "unlabeled")
    ∧ Forall2 (λ old new,
                 new ≠ NA ∧ (new = old ∨ (old = NA ∧ new = Str "unlabeled")))
              labels (fillna labels "unlabeled")
    ∧ Forall (λ new, new ≠ NA) (fillna labels "unlabeled").
Proof.
  apply (pull_data_labels_filled "label" "unlabeled" sample_select_cmd
           working_engine (Some "20230101") false false "images.db" world0
           (snd (pull_data "label" "unlabeled" sample_select_cmd
                   working_engine (Some "20230101") false false "images.db"
                   world0))).
  vm_compute. reflexivity.
Defined.


(** * Further properties of the module *)

(** ** Connections *)

Lemma live_closed (h : handle) (cs : list conn_state) (tr : list event) :
  live h {| conns := <[h := Closed]> cs; trace := tr |} = false.
Proof.
  unfold live; simpl.
  destruct (decide (h < length cs)) as [Hlt|Hge].
  - by rewrite list_lookup_insert_eq.
  - rewrite list_insert_ge by lia.
    by rewrite lookup_ge_None_2 by lia.
Qed.

(** X1: [create_connection] lets no [sqlite3.Error] out.  It returns a
    connection that is new and open and leaves the earlier ones as they
    were, or it returns [None] and opens nothing; an exception that
    escapes is not a [sqlite3.Error], and then nothing was opened
    either. *)
Theorem create_connection_outcomes (E : Engine) (db_path : string)
    (w : world) :
  match create_connection E db_path w with
  | (Ok (Some h), w') =>
      h = length (conns w) ∧ live h w' = true
      ∧ conns w' = conns w ++ [Open]
      ∧ connect_outcome E db_path w = None
  | (Ok None, w') =>
      conns w' = conns w
      ∧ ∃ e, connect_outcome E db_path w = Some e
             ∧ is_sqlite_error e = true
             ∧ trace w' = trace w ++ [SqlConnect db_path; Print (exn_str e)]
  | (Raise e, w') =>
      conns w' = conns w
      ∧ connect_outcome E db_path w = Some e
      ∧ is_sqlite_error e = false
  end.
Proof.
  unfold create_connection, sqlite3_connect. unfold_monad.
  destruct (connect_outcome E db_path w) as [e|] eqn:Hc; cbn.
  - destruct (is_sqlite_error e) eqn:He; cbn.
    + split; [done|]. exists e. by rewrite <- app_assoc.
    + done.
  - split; [done|]. split; [apply live_new_connection|done].
Qed.

(** X2: [close_connection] never raises.  Afterwards the connection of
    the object is not open, every other connection is as it was, and
    closing once more changes no connection. *)
Theorem close_connection_closes (self : Database) (w : world) :
  let w' := snd (close_connection self w) in
  fst (close_connection self w) = Ok tt
  ∧ (∀ h, conn self = Some h → live h w' = false)
  ∧ (∀ h, conn self ≠ Some h → conns w' !! h = conns w !! h)
  ∧ conns (snd (close_connection self w')) = conns w'.
Proof.
  unfold close_connection, conn_close. unfold_monad.
  destruct (conn self) as [h|]; cbn.
  - split; [done|]. split; [|split].
    + intros h' [= <-]. apply live_closed.
    + intros h' Hne. apply list_lookup_insert_ne. congruence.
    + apply list_insert_insert_eq.
  - repeat split; done.
Qed.

(** X3: opening a [Database] and closing it leaves no connection open,
    whether or not the file could be opened: the connection table grows
    by one closed connection, or not at all.  The only exception that can
    come out is one of [connect] that is not a [sqlite3.Error]. *)
Theorem Database_open_close (E : Engine) (db_path : string) (w : world) :
  let r := (db <- Database_init E db_path ;;
            run close_connection db ;;
            ret db) w in
  conns (snd r)
  = conns w ++ match connect_outcome E db_path w with
               | None => [Closed]
               | Some _ => []
               end
  ∧ ∀ e, fst r = Raise e →
         connect_outcome E db_path w = Some e ∧ is_sqlite_error e = false.
Proof.
  unfold Database_init, create_connection, sqlite3_connect, close_connection,
    conn_close.
  unfold_monad.
  destruct (connect_outcome E db_path w) as [e|] eqn:Hc; cbn.
  - destruct (is_sqlite_error e) eqn:He; cbn;
      (split; [by rewrite app_nil_r|]); intros e'; [discriminate|].
    by intros [= <-].
  - split; [apply close_new_connection|]. discriminate.
Qed.

(** ** The statement executor and the CRUD operations *)

(** X4: on an open connection [execute] never raises and changes no
    connection.  The statement goes to the engine once; the message
    with the label and the rollback follow exactly when the statement
    failed. *)
Theorem execute_on_open_connection (E : Engine) (self : Database)
    (h : handle) (operation query : string) (w : world) :
  conn self = Some h →
  live h w = true →
  execute E self operation query w
  = (Ok tt,
     {| conns := conns w;
        trace := trace w
                 ++ SqlExecute h query
                    :: match execute_outcome E w h query with
                       | Ok _ => []
                       | Raise _ =>
                           [Print ("Error in " +:+ operation +:+ " operation");
                            SqlRollback h]
                       end |}).
Proof.
  intros Hc Hl.
  unfold execute, conn_cursor, cur_execute, conn_rollback. unfold_monad.
  rewrite Hc. cbn. rewrite Hl. cbn. rewrite Hl.
  destruct (execute_outcome E w h query) as [rows|e]; cbn; [done|].
  unfold live in *. cbn. rewrite Hl. by rewrite <- !app_assoc.
Qed.

Lemma execute_on_open_connection_witness :
  execute refusing_engine {| conn := Some 0 |} "delete"
    "DELETE FROM images WHERE id = 7" {| conns := [Open]; trace := [] |}
  = (Ok tt,
     {| conns := [Open];
        trace := [SqlExecute 0 "DELETE FROM images WHERE id = 7";
                  Print "Error in delete operation";
                  SqlRollback 0] |}).
Proof.
  apply (execute_on_open_connection refusing_engine {| conn := Some 0 |} 0
           "delete" "DELETE FROM images WHERE id = 7"
           {| conns := [Open]; trace := [] |}); reflexivity.
Defined.

(** X5: on an open connection [create] never raises and changes no
    connection; the rows go to the engine in one [executemany], and the
    message and the rollback follow exactly when it failed. *)
Theorem create_on_open_connection (E : Engine) (self : Database)
    (h : handle) (query : string) (data : list row) (w : world) :
  conn self = Some h →
  live h w = true →
  create E self query data w
  = (Ok tt,
     {| conns := conns w;
        trace := trace w
                 ++ SqlExecuteMany h query data
                    :: match executemany_outcome E w h query data with
                       | None => []
                       | Some _ =>
                           [Print "error in insert operation"; SqlRollback h]
                       end |}).
Proof.
  intros Hc Hl.
  unfold create, conn_cursor, cur_executemany, conn_rollback. unfold_monad.
  rewrite Hc. cbn. rewrite Hl. cbn. rewrite Hl.
  destruct (executemany_outcome E w h query data) as [e|]; cbn; [|done].
  unfold live in *. cbn. rewrite Hl. by rewrite <- !app_assoc.
Qed.

Lemma create_on_open_connection_witness :
  create working_engine {| conn := Some 0 |}
    "INSERT INTO images VALUES (?, ?)" [[Num 7; Str "diatom"]]
    {| conns := [Open]; trace := [] |}
  = (Ok tt,
     {| conns := [Open];
        trace := [SqlExecuteMany 0 "INSERT INTO images VALUES (?, ?)"
                    [[Num 7; Str "diatom"]]] |}).
Proof.
  apply (create_on_open_connection working_engine {| conn := Some 0 |} 0
           "INSERT INTO images VALUES (?, ?)" [[Num 7; Str "diatom"]]
           {| conns := [Open]; trace := [] |}); reflexivity.
Defined.

(** X6: a connection that is not open makes [execute], [create] and
    [read] raise the [sqlite3.Error] of a closed database from their
    handlers, with nothing handed to the engine; so every one of them
    raises once [close_connection] has been called on the object. *)
Theorem crud_on_closed_connection_raise (E : Engine) (self : Database)
    (h : handle) (w : world) :
  conn self = Some h →
  live h w = false →
  (∀ operation query,
     execute E self operation query w
     = (Raise closed_database,
        {| conns := conns w;
           trace := trace w
                    ++ [Print ("Error in " +:+ operation +:+ " operation")] |}))
  ∧ (∀ query data,
       create E self query data w
       = (Raise closed_database,
          {| conns := conns w;
             trace := trace w ++ [Print "error in insert operation"] |}))
  ∧ (∀ table_name cols_needed conditions,
       read E self table_name cols_needed conditions w
       = (Raise closed_database,
          {| conns := conns w;
             trace := trace w ++ [Print "error in select operation"] |})).
Proof.
  intros Hc Hl.
  unfold execute, create, read, conn_cursor, conn_rollback. unfold_monad.
  rewrite Hc. cbn. rewrite Hl. cbn.
  unfold live in *. cbn. by rewrite Hl.
Qed.

Lemma crud_on_closed_connection_raise_witness :
  fst ((run close_connection {| conn := Some 0 |} ;;
        read working_engine {| conn := Some 0 |} "images" "*" None)
         {| conns := [Open]; trace := [] |})
  = Raise closed_database.
Proof.
  pose proof (crud_on_closed_connection_raise working_engine
                {| conn := Some 0 |} 0
                (snd (close_connection {| conn := Some 0 |}
                        {| conns := [Open]; trace := [] |}))
                eq_refl eq_refl) as (_ & _ & Hread).
  unfold bind. cbn [close_connection conn conn_close].
  cbn [close_connection conn conn_close snd] in Hread.
  by rewrite (Hread "images" "*" None).
Defined.

(** X7: with no connection ([conn] is [None]) the handlers of [create]
    and of [execute] under [new_table], [update] and [delete] raise the
    [AttributeError] of [None.rollback], after their message: the
    failure is not swallowed. *)
Theorem crud_on_null_connection_raise (E : Engine) (w : world) :
  let db := {| conn := None |} in
  (∀ query data,
     fst (create E db query data w) = Raise (none_has_no "rollback"))
  ∧ (∀ name schema,
       fst (new_table E db name schema w) = Raise (none_has_no "rollback"))
  ∧ (∀ table_name k v rest,
       fst (delete E db table_name (k :: v :: rest) w)
       = Raise (none_has_no "rollback"))
  ∧ (∀ table_name new_vals prim_key_id query,
       update_query table_name new_vals prim_key_id = Ok query →
       fst (update E db table_name new_vals prim_key_id w)
       = Raise (none_has_no "rollback")).
Proof.
  cbv zeta. repeat split; try reflexivity.
  intros table_name new_vals prim_key_id query Hq.
  unfold update. unfold bind at 1. unfold lift. by rewrite Hq.
Qed.

Lemma crud_on_null_connection_raise_witness :
  fst (update working_engine {| conn := None |} "images"
         [("label", "= 'diatom'")] ["id"; "7"] world0)
  = Raise (AttributeError "'NoneType' object has no attribute 'rollback'").
Proof.
  destruct (crud_on_null_connection_raise working_engine world0)
    as (_ & _ & _ & Hupdate).
  apply (Hupdate "images" [("label", "= 'diatom'")] ["id"; "7"]
           "UPDATE images SET label = 'diatom' WHERE id = 7").
  reflexivity.
Defined.

Lemma execute_commits (E : Engine) (self : Database)
    (operation query : string) (w : world) :
  commits (trace (snd (execute E self operation query w)))
  = commits (trace w).
Proof.
  unfold execute, conn_cursor, cur_execute, conn_rollback. unfold_monad.
  destruct (conn self) as [h|]; cbn.
  - destruct (live h w) eqn:Hl; cbn.
    + rewrite Hl.
      destruct (execute_outcome E w h query) as [rows|e]; cbn.
      * unfold commits. rewrite omap_app. cbn. by rewrite app_nil_r.
      * unfold live in *. cbn. rewrite Hl. cbn.
        unfold commits. rewrite !omap_app. cbn. by rewrite !app_nil_r.
    + unfold live in *. cbn. rewrite Hl. cbn.
      unfold commits. rewrite !omap_app. cbn. by rewrite !app_nil_r.
  - unfold commits. rewrite !omap_app. cbn. by rewrite !app_nil_r.
Qed.

(** X8: no method of [Database] commits.  Whatever the connection and
    whatever the engine answers, [execute], [new_table], [create],
    [read], [update], [delete] and [close_connection] add no call of
    [commit] to the trace. *)
Theorem Database_methods_never_commit (E : Engine) (self : Database)
    (w : world) :
  (∀ operation query,
     commits (trace (snd (execute E self operation query w)))
     = commits (trace w))
  ∧ (∀ name schema,
       commits (trace (snd (new_table E self name schema w)))
       = commits (trace w))
  ∧ (∀ query data,
       commits (trace (snd (create E self query data w))) = commits (trace w))
  ∧ (∀ table_name cols_needed conditions,
       commits (trace (snd (read E self table_name cols_needed conditions w)))
       = commits (trace w))
  ∧ (∀ table_name new_vals prim_key_id,
       commits (trace (snd (update E self table_name new_vals prim_key_id w)))
       = commits (trace w))
  ∧ (∀ table_name prim_key_id,
       commits (trace (snd (delete E self table_name prim_key_id w)))
       = commits (trace w))
  ∧ commits (trace (snd (close_connection self w))) = commits (trace w).
Proof.
  split; [intros; apply execute_commits|].
  split; [intros; apply execute_commits|].
  split.
  { intros query data.
    unfold create, conn_cursor, cur_executemany, conn_rollback. unfold_monad.
    destruct (conn self) as [h|]; cbn.
    - destruct (live h w) eqn:Hl; cbn.
      + rewrite Hl.
        destruct (executemany_outcome E w h query data) as [e|]; cbn.
        * unfold live in *. cbn. rewrite Hl. cbn.
          unfold commits. rewrite !omap_app. cbn. by rewrite !app_nil_r.
        * unfold commits. rewrite omap_app. cbn. by rewrite app_nil_r.
      + unfold live in *. cbn. rewrite Hl. cbn.
        unfold commits. rewrite !omap_app. cbn. by rewrite !app_nil_r.
    - unfold commits. rewrite !omap_app. cbn. by rewrite !app_nil_r. }
  split.
  { intros table_name cols_needed conditions.
    unfold read, conn_cursor, cur_execute, cur_fetchall, conn_rollback.
    unfold_monad.
    destruct (conn self) as [h|]; cbn.
    - destruct (live h w) eqn:Hl; cbn.
      + rewrite Hl.
        destruct (execute_outcome E w h _) as [rows|e]; cbn.
        * unfold commits. rewrite omap_app. cbn. by rewrite app_nil_r.
        * unfold live in *. cbn. rewrite Hl. cbn.
          unfold commits. rewrite !omap_app. cbn. by rewrite !app_nil_r.
      + unfold live in *. cbn. rewrite Hl. cbn.
        unfold commits. rewrite !omap_app. cbn. by rewrite !app_nil_r.
    - unfold commits. rewrite !omap_app. cbn. by rewrite !app_nil_r. }
  split.
  { intros table_name new_vals prim_key_id. unfold update.
    unfold bind at 1. unfold lift.
    destruct (update_query table_name new_vals prim_key_id); [|done].
    apply execute_commits. }
  split.
  { intros table_name prim_key_id. unfold delete.
    unfold bind at 1. unfold lift.
    destruct (delete_query table_name prim_key_id); [|done].
    apply execute_commits. }
  unfold close_connection, conn_close.
  destruct (conn self) as [h|]; cbn; [|done].
  unfold commits. rewrite omap_app. cbn. by rewrite app_nil_r.
Qed.

(** ** Row identifiers *)

Lemma update_loop_keys (new_vals : dict string) (keys : list string)
    (query : string) :
  keys ⊆ dict_keys new_vals →
  ∃ query', update_loop keys new_vals query = Ok query'.
Proof.
  revert query. induction keys as [|key keys IH]; intros query Hsub.
  - by exists query.
  - assert (Hget : ∃ v, dict_getitem new_vals key = Ok v).
    { assert (Hin : key ∈ dict_keys new_vals)
        by (apply Hsub, list_elem_of_here).
      clear -Hin. induction new_vals as [|[k v] d IHd]; simpl in *.
      - by apply elem_of_nil in Hin.
      - destruct (decide (k = key)) as [->|Hne]; [by exists v|].
        apply IHd. apply elem_of_cons in Hin as [Heq|Hin]; [congruence|done]. }
    destruct Hget as [v Hv]. cbn [update_loop]. rewrite Hv. cbn [result_bind].
    apply IH. intros k Hk. apply Hsub. by apply list_elem_of_further.
Qed.

(** X9: [update] cannot fail on the mapping, only on the row
    identifier: the statement is built exactly when the identifier has
    at least two elements (further ones are ignored), and with a shorter
    one [update] raises [IndexError] before anything is printed or
    handed to the engine. *)
Theorem update_row_identifier_bounds (E : Engine) (self : Database)
    (table_name : string) (new_vals : dict string)
    (prim_key_id : list string) (w : world) :
  match prim_key_id with
  | k :: v :: rest =>
      update_query table_name new_vals prim_key_id
      = update_query table_name new_vals [k; v]
      ∧ ∃ query, update_query table_name new_vals prim_key_id = Ok query
  | _ =>
      update E self table_name new_vals prim_key_id w
      = (Raise (IndexError "list index out of range"), w)
  end.
Proof.
  destruct (update_loop_keys new_vals (dict_keys new_vals)
              ("UPDATE " +:+ table_name +:+ " SET ")) as [q Hq]; [done|].
  destruct prim_key_id as [|k [|v rest]].
  - unfold update, update_query. rewrite Hq. reflexivity.
  - unfold update, update_query. rewrite Hq. reflexivity.
  - unfold update_query. rewrite Hq. split; [reflexivity|].
    cbn. eauto.
Qed.

(** X10: [delete] builds [DELETE FROM <table> WHERE <col> = <value>]
    from the first two elements of the row identifier and hands it to
    [execute] under the label [delete]; with a shorter identifier it
    raises [IndexError] before anything is printed or handed to the
    engine. *)
Theorem delete_row_identifier_bounds (E : Engine) (self : Database)
    (table_name : string) (prim_key_id : list string) (w : world) :
  match prim_key_id with
  | k :: v :: rest =>
      delete E self table_name prim_key_id w
      = execute E self "delete"
          ("DELETE FROM " +:+ table_name +:+ " WHERE " +:+ k +:+ " = " +:+ v) w
  | _ =>
      delete E self table_name prim_key_id w
      = (Raise (IndexError "list index out of range"), w)
  end.
Proof. by destruct prim_key_id as [|k [|v rest]]. Qed.

(** ** insert_db, all paths *)

Lemma insert_db_worlds (db_path table_name : string) (df : DataFrame)
    (w : world) :
  {| conns := conns w ++ [Open];
     trace := (trace w ++ [SqlConnect db_path])
              ++ [Print (TAB +:+ "a. Connected to Sqlite")] |}
  = world_at_append db_path w
  ∧ {| conns := conns w ++ [Open];
       trace := (((trace w ++ [SqlConnect db_path])
                  ++ [Print (TAB +:+ "a. Connected to Sqlite")])
                 ++ [PdToSql (length (conns w)) table_name df])
                ++ [Print (TAB +:+ "b. Inserted into Database")] |}
    = world_at_commit df db_path table_name w.
Proof.
  unfold world_at_append, world_at_commit. split; f_equal.
  - by rewrite <- app_assoc.
  - by rewrite <- !app_assoc.
Qed.

(** X11: the result of [insert_db] on every path.  A failed [connect],
    of whatever kind, comes out as the [UnboundLocalError] of the
    [finally] block; a [sqlite3.Error] of the append or of the commit is
    swallowed; any other exception of theirs is raised again after the
    close.  So no [sqlite3.Error] ever escapes. *)
Theorem insert_db_result (E : Engine) (df : DataFrame)
    (db_path table_name : string) (w : world) :
  fst (insert_db E df db_path table_name w)
  = match connect_outcome E db_path w with
    | Some _ => Raise (UnboundLocalError "conn")
    | None =>
        match to_sql_outcome E (world_at_append db_path w)
                (length (conns w)) df table_name with
        | Some e => if is_sqlite_error e then Ok tt else Raise e
        | None =>
            match commit_outcome E (world_at_commit df db_path table_name w)
                    (length (conns w)) with
            | Some e => if is_sqlite_error e then Ok tt else Raise e
            | None => Ok tt
            end
        end
    end
  ∧ ∀ e, fst (insert_db E df db_path table_name w) = Raise e →
         is_sqlite_error e = false.
Proof.
  destruct (insert_db_worlds db_path table_name df w) as [Ha Hc].
  unfold insert_db, sqlite3_connect.
  destruct (connect_outcome E db_path w) as [e0|] eqn:Hconn.
  - unfold_monad. cbn.
    destruct (is_sqlite_error e0); cbn; (split; [done|]); by intros e [= <-].
  - unfold df_to_sql, conn_commit, conn_close. unfold_monad. cbn.
    rewrite Ha.
    destruct (to_sql_outcome E _ _ df table_name) as [e1|]; cbn.
    + destruct (is_sqlite_error e1) eqn:He1; cbn;
        (split; [done|]); intros e; [discriminate|]. by intros [= <-].
    + rewrite live_new_connection. cbn. rewrite Hc.
      destruct (commit_outcome E _ _) as [e2|]; cbn.
      * destruct (is_sqlite_error e2) eqn:He2; cbn;
          (split; [done|]); intros e; [discriminate|]. by intros [= <-].
      * split; [done|]. discriminate.
Qed.

(** X12: [insert_db] commits at most once, on the connection it opened,
    and only after the append succeeded: a failed [connect] or a failed
    [to_sql] leaves the trace without a new call of [commit]. *)
Theorem insert_db_commits_after_append (E : Engine) (df : DataFrame)
    (db_path table_name : string) (w : world) :
  commits (trace (snd (insert_db E df db_path table_name w)))
  = commits (trace w)
    ++ match connect_outcome E db_path w with
       | Some _ => []
       | None =>
           match to_sql_outcome E (world_at_append db_path w)
                   (length (conns w)) df table_name with
           | Some _ => []
           | None => [length (conns w)]
           end
       end.
Proof.
  destruct (insert_db_worlds db_path table_name df w) as [Ha Hc].
  unfold insert_db, sqlite3_connect.
  destruct (connect_outcome E db_path w) as [e0|] eqn:Hconn.
  - unfold_monad. cbn.
    destruct (is_sqlite_error e0); cbn;
      unfold commits; rewrite ?omap_app; cbn; by rewrite ?app_nil_r.
  - unfold df_to_sql, conn_commit, conn_close. unfold_monad. cbn.
    rewrite Ha.
    destruct (to_sql_outcome E _ _ df table_name) as [e1|]; cbn.
    + destruct (is_sqlite_error e1); cbn;
        unfold commits; rewrite ?omap_app; cbn; by rewrite ?app_nil_r.
    + rewrite live_new_connection. cbn.
      destruct (commit_outcome E _ _) as [e2|]; cbn.
      * destruct (is_sqlite_error e2); cbn;
          unfold commits; rewrite ?omap_app; cbn; by rewrite ?app_nil_r.
      * unfold commits; rewrite ?omap_app; cbn; by rewrite ?app_nil_r.
Qed.

(** ** get_query and pull_data, further paths *)

Section PullDataPaths.

Variable IMG_LBL : string.
Variable IMG_UNLBLED : string.
Variable SELECT_CMD : gmap string string.
Variable E : Engine.

Lemma select_images_key (filtered_size : bool) :
  "select_images" +:+ (if filtered_size then "_filtered_size" else "")
  = select_images_name filtered_size.
Proof. by destruct filtered_size. Qed.

Lemma pull_data_steps (image_date : option string)
    (all filtered_size : bool) (db_path : string) (w : world) :
  pull_data IMG_LBL IMG_UNLBLED SELECT_CMD E image_date all filtered_size
    db_path w
  = match Database_init E db_path (world_at_connect w) with
    | (Ok db, w1) =>
        match get_query SELECT_CMD E image_date filtered_size all with
        | Ok query =>
            pull_data_from_query IMG_LBL IMG_UNLBLED E query (conn db) w1
        | Raise e => (Raise e, w1)
        end
    | (Raise e, w1) => (Raise e, w1)
    end.
Proof.
  unfold pull_data. unfold bind at 1. unfold log_info at 1, emit at 1.
  fold (world_at_connect w). unfold bind at 1.
  destruct (Database_init E db_path (world_at_connect w)) as [[db|e] w1];
    [|done].
  unfold bind at 1. unfold lift at 1.
  by destruct (get_query SELECT_CMD E image_date filtered_size all).
Qed.

Lemma Database_init_result (db_path : string) (w : world) :
  Database_init E db_path w
  = match connect_outcome E db_path w with
    | None =>
        (Ok {| conn := Some (length (conns w)) |},
         {| conns := conns w ++ [Open];
            trace := trace w ++ [SqlConnect db_path;
                                 Print "SUCCESS: Table Connected"] |})
    | Some e =>
        if is_sqlite_error e
        then (Ok {| conn := None |},
              {| conns := conns w;
                 trace := trace w ++ [SqlConnect db_path; Print (exn_str e)] |})
        else (Raise e,
              {| conns := conns w; trace := trace w ++ [SqlConnect db_path] |})
    end.
Proof.
  unfold Database_init, create_connection, sqlite3_connect. unfold_monad.
  destruct (connect_outcome E db_path w) as [e|]; cbn.
  - destruct (is_sqlite_error e); cbn; by rewrite <- ?app_assoc.
  - by rewrite <- app_assoc.
Qed.

Lemma pull_data_from_query_conns (query : string) (c : connection)
    (w : world) :
  conns (snd (pull_data_from_query IMG_LBL IMG_UNLBLED E query c w))
  = conns w.
Proof.
  unfold pull_data_from_query, pd_read_sql. unfold_monad.
  destruct (read_sql_outcome E w c query) as [df|e]; cbn; [|done].
  destruct (df_getitem df IMG_LBL) as [labels|e]; cbn; [|done].
  rewrite df_getitem_setitem.
  by destruct (df_getattr _ "image_date") as [dates|e].
Qed.

(** X13: with [all = false], a date that parses and no template under
    the chosen name, the [KeyError] of the lookup is caught by the bare
    handler: [get_query] raises the [ValueError] that says the date,
    already rewritten as YYYY-MM-DD, does not match the format. *)
Theorem get_query_missing_template (image_date : option string)
    (filtered_size : bool) (d : date) :
  strptime_Ymd image_date = Ok d →
  SELECT_CMD !! select_images_name filtered_size = None →
  get_query SELECT_CMD E image_date filtered_size false
  = Raise (date_mismatch (strftime_Y_m_d d)).
Proof.
  intros Hparse Hnone. unfold get_query. cbn [negb].
  rewrite Hparse, select_images_key. unfold map_getitem. by rewrite Hnone.
Qed.

(** X14: with [all = false] only two exceptions come out of
    [get_query]: the [UnboundLocalError] for [date] when the date does
    not parse, and otherwise the [ValueError] about the rewritten date,
    whatever went wrong with the template.  No [KeyError], [IndexError]
    or [TypeError] of the body escapes as itself. *)
Theorem get_query_filter_errors (image_date : option string)
    (filtered_size : bool) (e : exn) :
  get_query SELECT_CMD E image_date filtered_size false = Raise e →
  (e = UnboundLocalError "date" ∧ ∃ e0, strptime_Ymd image_date = Raise e0)
  ∨ (∃ d, strptime_Ymd image_date = Ok d
          ∧ e = date_mismatch (strftime_Y_m_d d)).
Proof.
  unfold get_query. cbn [negb].
  destruct (strptime_Ymd image_date) as [d|e0].
  - destruct (result_bind _ _) as [q|e1]; [discriminate|].
    cbn. intros [= <-]. right. by exists d.
  - cbn. intros [= <-]. left. split; [done|]. by exists e0.
Qed.

(** X15: with [all = true] and no template [select_all], the
    [KeyError] of the lookup is not caught: it comes out of [get_query]
    and of [pull_data], which has read nothing by then. *)
Theorem pull_data_all_missing_template (image_date : option string)
    (filtered_size : bool) :
  SELECT_CMD !! "select_all" = None →
  get_query SELECT_CMD E image_date filtered_size true
  = Raise (KeyError "select_all")
  ∧ ∀ db_path w,
      connect_raises_only_sqlite E db_path →
      let r := pull_data IMG_LBL IMG_UNLBLED SELECT_CMD E image_date true
                 filtered_size db_path w in
      fst r = Raise (KeyError "select_all")
      ∧ queries_read (trace (snd r)) = queries_read (trace w).
Proof.
  intros Hnone.
  assert (Hq : get_query SELECT_CMD E image_date filtered_size true
               = Raise (KeyError "select_all")).
  { unfold get_query. cbn [negb]. unfold map_getitem. by rewrite Hnone. }
  split; [done|]. intros db_path w Hconn. cbv zeta.
  destruct (pull_data_reaches_query IMG_LBL IMG_UNLBLED SELECT_CMD E
              image_date true filtered_size db_path w Hconn)
    as (db & w1 & Htr & ->).
  by rewrite Hq.
Qed.

(** X16: [pull_data] never closes the connection it opens.  On every
    path the connection table ends as it was, with one more connection,
    still open, when [connect] succeeded. *)
Theorem pull_data_leaves_connection_open (image_date : option string)
    (all filtered_size : bool) (db_path : string) (w : world) :
  conns (snd (pull_data IMG_LBL IMG_UNLBLED SELECT_CMD E image_date all
                filtered_size db_path w))
  = conns w ++ match connect_outcome E db_path (world_at_connect w) with
               | None => [Open]
               | Some _ => []
               end.
Proof.
  rewrite pull_data_steps, Database_init_result.
  destruct (connect_outcome E db_path (world_at_connect w)) as [e|].
  - destruct (is_sqlite_error e);
      [destruct (get_query SELECT_CMD E image_date filtered_size all)|];
      rewrite ?pull_data_from_query_conns; cbn; by rewrite app_nil_r.
  - destruct (get_query SELECT_CMD E image_date filtered_size all);
      by rewrite ?pull_data_from_query_conns.
Qed.

(** X17: [pull_data] does not look at the handle of its [Database].
    When the file cannot be opened ([connect] raises a [sqlite3.Error])
    and a query is chosen, that query is still handed to [pd.read_sql],
    with [None] for the connection. *)
Theorem pull_data_reads_without_connection (image_date : option string)
    (all filtered_size : bool) (db_path : string) (w : world) (e : exn)
    (query : string) :
  connect_outcome E db_path (world_at_connect w) = Some e →
  is_sqlite_error e = true →
  get_query SELECT_CMD E image_date filtered_size all = Ok query →
  pull_data IMG_LBL IMG_UNLBLED SELECT_CMD E image_date all filtered_size
    db_path w
  = pull_data_from_query IMG_LBL IMG_UNLBLED E query None
      {| conns := conns w;
         trace := trace w ++ [Log (LogSection "SEASCAPE");
                              SqlConnect db_path; Print (exn_str e)] |}
  ∧ PdReadSql None query
    ∈ trace (snd (pull_data IMG_LBL IMG_UNLBLED SELECT_CMD E image_date all
                    filtered_size db_path w)).
Proof.
  intros Hc He Hq.
  assert (Heq : pull_data IMG_LBL IMG_UNLBLED SELECT_CMD E image_date all
                  filtered_size db_path w
                = pull_data_from_query IMG_LBL IMG_UNLBLED E query None
                    {| conns := conns w;
                       trace := trace w ++ [Log (LogSection "SEASCAPE");
                                            SqlConnect db_path;
                                            Print (exn_str e)] |}).
  { rewrite pull_data_steps, Database_init_result, Hc, He, Hq.
    unfold world_at_connect. cbn. by rewrite <- app_assoc. }
  split; [done|]. rewrite Heq.
  unfold pull_data_from_query, pd_read_sql. unfold_monad.
  destruct (read_sql_outcome E _ None query) as [df|e1]; cbn;
    [destruct (df_getitem df IMG_LBL) as [labels|e1]; cbn;
     [rewrite df_getitem_setitem;
      destruct (df_getattr _ "image_date") as [dates|e1]; cbn|]|];
    set_solver.
Qed.

Lemma cols_lookup_assign_ne (name name' : string) (col : list cell)
    (cols : list (string * list cell)) :
  name ≠ name' →
  cols_lookup name' (cols_assign name col cols) = cols_lookup name' cols.
Proof.
  intros Hne. induction cols as [|[n c] cols IH]; simpl.
  - by rewrite decide_False.
  - destruct (decide (n = name)) as [->|Hn]; simpl.
    + by rewrite !decide_False.
    + by rewrite IH.
Qed.

Lemma cols_assign_names (name : string) (col c : list cell)
    (cols : list (string * list cell)) :
  cols_lookup name cols = Some c →
  map fst (cols_assign name col cols) = map fst cols.
Proof.
  induction cols as [|[n c'] cols IH]; simpl; [discriminate|].
  destruct (decide (n = name)) as [->|Hn]; simpl; [done|].
  intros H. by rewrite IH.
Qed.

Lemma pull_data_from_query_Ok (query : string) (c : connection)
    (w w' : world) (df : DataFrame) :
  pull_data_from_query IMG_LBL IMG_UNLBLED E query c w = (Ok df, w') →
  ∃ fetched labels dates,
    read_sql_outcome E w c query = Ok fetched
    ∧ cols_lookup IMG_LBL (df_cols fetched) = Some labels
    ∧ df = df_setitem fetched IMG_LBL (fillna labels IMG_UNLBLED)
    ∧ cols_lookup "image_date" (df_cols df) = Some dates.
Proof.
  unfold pull_data_from_query, pd_read_sql. unfold_monad.
  destruct (read_sql_outcome E w c query) as [fetched|e]; cbn; [|discriminate].
  unfold df_getitem at 1.
  destruct (cols_lookup IMG_LBL (df_cols fetched)) as [labels|] eqn:Hl; cbn;
    [|discriminate].
  rewrite df_getitem_setitem. unfold df_getattr.
  destruct (cols_lookup "image_date" _) as [dates|] eqn:Hd; cbn;
    [|discriminate].
  intros [= <- _]. by exists fetched, labels, dates.
Qed.

(** X18: a successful [pull_data] changes nothing of the fetched table
    but the entries of the label column: the number of rows, the names
    and the order of the columns, every other column and the length of
    the label column are those of the table that [pd.read_sql] returned,
    which had both the label column and the column [image_date]. *)
Theorem pull_data_changes_only_labels (image_date : option string)
    (all filtered_size : bool) (db_path : string) (w w' : world)
    (df : DataFrame) :
  pull_data IMG_LBL IMG_UNLBLED SELECT_CMD E image_date all filtered_size
    db_path w = (Ok df, w') →
  ∃ fetched w0 c query labels,
    read_sql_outcome E w0 c query = Ok fetched
    ∧ cols_lookup IMG_LBL (df_cols fetched) = Some labels
    ∧ is_Some (cols_lookup "image_date" (df_cols fetched))
    ∧ df_nrows df = df_nrows fetched
    ∧ map fst (df_cols df) = map fst (df_cols fetched)
    ∧ (∀ name, name ≠ IMG_LBL →
               cols_lookup name (df_cols df)
               = cols_lookup name (df_cols fetched))
    ∧ ∃ labels', cols_lookup IMG_LBL (df_cols df) = Some labels'
                 ∧ length labels' = length labels.
Proof.
  rewrite pull_data_steps.
  destruct (Database_init E db_path (world_at_connect w)) as [[db|e] w1];
    [|discriminate].
  destruct (get_query SELECT_CMD E image_date filtered_size all) as [query|e];
    [|discriminate].
  intros (fetched & labels & dates & Hread & Hl & -> & Hd)%pull_data_from_query_Ok.
  exists fetched, w1, (conn db), query, labels.
  split; [done|]. split; [done|]. split.
  { destruct (decide (IMG_LBL = "image_date")) as [Heq|Hne].
    - rewrite <- Heq, Hl. by eexists.
    - cbn in Hd. rewrite cols_lookup_assign_ne in Hd by done.
      rewrite Hd. by eexists. }
  split; [done|]. split; [by apply (cols_assign_names _ _ labels)|].
  split; [intros name Hne; by apply cols_lookup_assign_ne|].
  exists (fillna labels IMG_UNLBLED). split.
  - apply cols_lookup_assign.
  - unfold fillna. apply length_map.
Qed.

(** X19: a fetched table without the label column makes [pull_data]
    raise the [KeyError] of that column right after the read; one with
    the label column and without a column [image_date] makes it raise an
    [AttributeError], and the last thing it did before was to log the
    entry [SUCCESS]. *)
Theorem pull_data_missing_columns (image_date : option string)
    (all filtered_size : bool) (db_path : string) (w : world)
    (query : string) (fetched : DataFrame) :
  connect_raises_only_sqlite E db_path →
  get_query SELECT_CMD E image_date filtered_size all = Ok query →
  (∀ w0 c, read_sql_outcome E w0 c query = Ok fetched) →
  let r := pull_data IMG_LBL IMG_UNLBLED SELECT_CMD E image_date all
             filtered_size db_path w in
  (cols_lookup IMG_LBL (df_cols fetched) = None →
   fst r = Raise (KeyError IMG_LBL)
   ∧ ∃ c, last (trace (snd r)) = Some (PdReadSql c query))
  ∧ (is_Some (cols_lookup IMG_LBL (df_cols fetched)) →
     cols_lookup "image_date" (df_cols fetched) = None →
     fst r = Raise (AttributeError
                      "'DataFrame' object has no attribute 'image_date'")
     ∧ last (trace (snd r)) = Some (Log LogSuccess)).
Proof.
  intros Hconn Hq Hread. cbv zeta.
  rewrite pull_data_steps, Database_init_result, Hq.
  unfold pull_data_from_query, pd_read_sql, world_at_connect. unfold_monad.
  split.
  - intros Hnone.
    destruct (connect_outcome E db_path _) as [e|] eqn:Hc;
      [rewrite (Hconn _ _ Hc)|]; cbn; rewrite Hread;
      unfold df_getitem; rewrite Hnone; cbn;
      (split; [done|]); eexists; apply last_snoc.
  - intros [labels Hl] Hnone.
    assert (Hne : IMG_LBL ≠ "image_date") by (intros ->; congruence).
    destruct (connect_outcome E db_path _) as [e|] eqn:Hc;
      [rewrite (Hconn _ _ Hc)|]; cbn; rewrite Hread;
      unfold df_getitem, df_getattr; rewrite Hl; cbn;
      rewrite cols_lookup_assign_ne, Hnone by done;
      cbn; (split; [done|]); apply last_snoc.
Qed.

End PullDataPaths.

Lemma get_query_missing_template_witness :
  get_query ({[ "select_all" := "SELECT * FROM date_sampled" ]}
               : gmap string string)
    working_engine (Some "20230101") true false
  = Raise (ValueError "time data '2023-01-01' does not match format '%Y%m%d'").
Proof.
  apply (get_query_missing_template
           ({[ "select_all" := "SELECT * FROM date_sampled" ]}
              : gmap string string)
           working_engine (Some "20230101") true
           {| year := 2023; month := 1; day := 1 |}); reflexivity.
Defined.

Lemma get_query_filter_errors_witness :
  (UnboundLocalError "date" = UnboundLocalError "date"
   ∧ ∃ e0, strptime_Ymd (Some "2023-01-01") = Raise e0)
  ∨ (∃ d, strptime_Ymd (Some "2023-01-01") = Ok d
          ∧ UnboundLocalError "date" = date_mismatch (strftime_Y_m_d d)).
Proof.
  apply (get_query_filter_errors sample_select_cmd working_engine
           (Some "2023-01-01") false (UnboundLocalError "date")).
  reflexivity.
Defined.

Lemma pull_data_all_missing_template_witness :
  get_query (∅ : gmap string string) working_engine None false true
  = Raise (KeyError "select_all")
  ∧ fst (pull_data "label" "unlabeled" (∅ : gmap string string)
           working_engine None true false "images.db" world0)
    = Raise (KeyError "select_all").
Proof.
  destruct (pull_data_all_missing_template "label" "unlabeled"
              (∅ : gmap string string) working_engine None false
              (lookup_empty "select_all"))
    as [Hq Hpull].
  split; [exact Hq|].
  apply (Hpull "images.db" world0). intros w e. discriminate.
Defined.

Lemma pull_data_reads_without_connection_witness :
  PdReadSql None "SELECT * FROM date_sampled"
  ∈ trace (snd (pull_data "label" "unlabeled" sample_select_cmd
                  unopenable_engine None true false
                  "/no/such/dir/images.db" world0)).
Proof.
  apply (pull_data_reads_without_connection "label" "unlabeled"
           sample_select_cmd unopenable_engine None true false
           "/no/such/dir/images.db" world0
           (SqliteError "unable to open database file")
           "SELECT * FROM date_sampled"); reflexivity.
Defined.

Lemma pull_data_changes_only_labels_witness :
  ∃ fetched w0 c query labels,
    read_sql_outcome working_engine w0 c query = Ok fetched
    ∧ cols_lookup "label" (df_cols fetched) = Some labels
    ∧ is_Some (cols_lookup "image_date" (df_cols fetched))
    ∧ df_nrows sample_table_filled = df_nrows fetched
    ∧ map fst (df_cols sample_table_filled) = map fst (df_cols fetched)
    ∧ (∀ name, name ≠ "label" →
               cols_lookup name (df_cols sample_table_filled)
               = cols_lookup name (df_cols fetched))
    ∧ ∃ labels', cols_lookup "label" (df_cols sample_table_filled)
                 = Some labels'
                 ∧ length labels' = length labels.
Proof.
  apply (pull_data_changes_only_labels "label" "unlabeled" sample_select_cmd
           working_engine None true false "images.db" world0
           (snd (pull_data "label" "unlabeled" sample_select_cmd
                   working_engine None true false "images.db" world0))).
  vm_compute. reflexivity.
Defined.

Lemma pull_data_missing_columns_witness :
  fst (pull_data "species" "unlabeled" sample_select_cmd working_engine
         None true false "images.db" world0)
  = Raise (KeyError "species").
Proof.
  destruct (pull_data_missing_columns "species" "unlabeled" sample_select_cmd
              working_engine None true false "images.db" world0
              "SELECT * FROM date_sampled" sample_table) as [Hmissing _].
  - intros w e. discriminate.
  - reflexivity.
  - reflexivity.
  - by destruct (Hmissing eq_refl).
Defined.

(** ** What goes into the query *)

Lemma digit_digit_char (n : nat) : digit (digit_char n) = true.
Proof.
  unfold digit_char.
  pose proof (Nat.mod_upper_bound n 10 ltac:(lia)) as Hlt.
  destruct (n mod 10) as [|k]; [reflexivity|].
  do 9 (destruct k as [|k]; [reflexivity|]). lia.
Qed.

Lemma strftime_date_text (d : date) :
  date_text (strftime_Y_m_d d) = true
  ∧ String.length (strftime_Y_m_d d) ≤ 10
  ∧ (1000 ≤ year d → String.length (strftime_Y_m_d d) = 10).
Proof.
  unfold strftime_Y_m_d, year_text.
  destruct (Nat.ltb_spec (year d) 10);
    [|destruct (Nat.ltb_spec (year d) 100);
      [|destruct (Nat.ltb_spec (year d) 1000)]];
    unfold pad4, pad2; rewrite !str_app_cons, !str_app_nil_l;
    (split; [|split; [cbn [String.length]; lia
                     |intros ?; cbn [String.length]; lia]]);
    unfold date_text; cbn [list_ascii_of_string forallb];
    by rewrite !digit_digit_char.
Qed.

(** X20: with [all = false], the text of [image_date] never reaches
    the query.  A query comes out only when the date parsed and the
    template exists, and what is put into the template is then the
    printed date: digits and dashes only, ten characters at most, and
    ten from the year 1000 on. *)
Theorem get_query_substitutes_a_date (SELECT_CMD : gmap string string)
    (E : Engine) (image_date : option string) (filtered_size : bool)
    (query : string) :
  get_query SELECT_CMD E image_date filtered_size false = Ok query →
  ∃ d template,
    strptime_Ymd image_date = Ok d
    ∧ SELECT_CMD !! select_images_name filtered_size = Some template
    ∧ str_format E template (strftime_Y_m_d d) = Ok query
    ∧ date_text (strftime_Y_m_d d) = true
    ∧ String.length (strftime_Y_m_d d) ≤ 10
    ∧ (1000 ≤ year d → String.length (strftime_Y_m_d d) = 10).
Proof.
  unfold get_query. cbn [negb].
  destruct (strptime_Ymd image_date) as [d|e0]; [|discriminate].
  assert (Hname : "select_images"
                    +:+ (if filtered_size then "_filtered_size" else "")
                  = select_images_name filtered_size)
    by (by destruct filtered_size).
  rewrite Hname. unfold map_getitem.
  destruct (SELECT_CMD !! select_images_name filtered_size)
    as [template|] eqn:Ht; cbn [result_bind]; [|discriminate].
  destruct (str_format E template (strftime_Y_m_d d)) as [q|e1] eqn:Hf;
    [|discriminate].
  intros [= <-]. exists d, template.
  destruct (strftime_date_text d) as (Htext & Hle & Hlen). done.
Qed.

Lemma get_query_substitutes_a_date_witness :
  ∃ d template,
    strptime_Ymd (Some "20240229") = Ok d
    ∧ sample_select_cmd !! select_images_name false = Some template
    ∧ str_format working_engine template (strftime_Y_m_d d)
      = Ok "SELECT * FROM date_sampled WHERE image_date = '2024-02-29'"
    ∧ date_text (strftime_Y_m_d d) = true
    ∧ String.length (strftime_Y_m_d d) ≤ 10
    ∧ (1000 ≤ year d → String.length (strftime_Y_m_d d) = 10).
Proof.
  apply (get_query_substitutes_a_date sample_select_cmd working_engine
           (Some "20240229") false).
  reflexivity.
Defined.
